(** * TrafficGenerator front end: section renderers and page handlers

A shallow embedding of the React components of the content dashboard
(SEOScoreCard, ContentFreshness, MetaPreview, TrafficInsights,
TopicClusters, ExportModal) and of the page handlers (AddContent,
Dashboard, EnhancedContentDetails), with the properties the
specification states about them.

Conventions.
- A JavaScript value is a term of [value]: the JSON values the backend
  sends, plus [undefined].  Numbers are the integer-valued ones (scores,
  counts, days); JSON carries neither NaN nor the infinities, and NaN
  only arises inside comparisons, where it is [None].
- A component function returns [Ok None] for [return null], [Ok (Some v)]
  for an element, where [v] records every dynamic slot of the JSX
  (class names, style widths, children) and leaves the static markup
  out, and [Throw TypeError] when evaluating it raises.
- Handlers that await a request take the settlement of that request as
  an argument and return the effects they perform, in order. *)

From Stdlib Require Import ZArith List String Ascii Bool Lia DecimalString.
Import ListNotations.
Open Scope string_scope.
Open Scope Z_scope.

(* ================================================================== *)
(** ** JavaScript values and the operators the components use *)

#[local] Set Warnings "-register-all".
Inductive value : Type :=
| VUndefined
| VNull
| VBool (b : bool)
| VNum (n : Z)
| VStr (s : string)
| VArr (items : list value)
| VObj (fields : list (string * value)).

Inductive exn : Type := TypeError.

Inductive result (A : Type) : Type :=
| Ok (a : A)
| Throw (e : exn).
Arguments Ok {A} a.
Arguments Throw {A} e.

Definition bind {A B} (m : result A) (k : A -> result B) : result B :=
  match m with
  | Ok a => k a
  | Throw e => Throw e
  end.

Notation "x <- m ;; k" := (bind m (fun x => k))
  (at level 61, m at next level, right associativity).

Fixpoint mapM {A B} (f : A -> result B) (l : list A) : result (list B) :=
  match l with
  | [] => Ok []
  | x :: r => y <- f x ;; ys <- mapM f r ;; Ok (y :: ys)
  end.

(** [!v] is [negb (truthy v)]. *)
Definition truthy (v : value) : bool :=
  match v with
  | VUndefined | VNull => false
  | VBool b => b
  | VNum n => negb (n =? 0)
  | VStr s => negb (s =? "")%string
  | VArr _ | VObj _ => true
  end.

Definition nullish (v : value) : bool :=
  match v with
  | VUndefined | VNull => true
  | _ => false
  end.

(** [a || b] and [a && b] return one of their operands. *)
Definition or_else (a b : value) : value := if truthy a then a else b.
Definition and_then (a b : value) : value := if truthy a then b else a.

Fixpoint lookup (k : string) (fields : list (string * value)) : value :=
  match fields with
  | [] => VUndefined
  | (k', v) :: rest => if (k =? k')%string then v else lookup k rest
  end.

(** [v?.k]: the data properties the components read are the own fields of
    an object and the [length] of a string or an array. *)
Definition optget (v : value) (k : string) : value :=
  match v with
  | VObj fields => lookup k fields
  | VArr items => if (k =? "length")%string then VNum (Z.of_nat (List.length items)) else VUndefined
  | VStr s => if (k =? "length")%string then VNum (Z.of_nat (String.length s)) else VUndefined
  | _ => VUndefined
  end.

(** [v.k]: reading a property of [null] or [undefined] raises. *)
Definition get (v : value) (k : string) : result value :=
  if nullish v then Throw TypeError else Ok (optget v k).

Definition Z_to_string (n : Z) : string := NilZero.string_of_int (Z.to_int n).

(** ToString, as a template literal applies it. *)
Fixpoint ToString (v : value) : string :=
  match v with
  | VUndefined => "undefined"
  | VNull => "null"
  | VBool true => "true"
  | VBool false => "false"
  | VNum n => Z_to_string n
  | VStr s => s
  | VArr items =>
      (fix join (l : list value) : string :=
         match l with
         | [] => ""
         | x :: r =>
             let e := match x with
                      | VUndefined | VNull => ""
                      | _ => ToString x
                      end in
             match r with
             | [] => e
             | _ :: _ => e ++ "," ++ join r
             end
         end) items
  | VObj _ => "[object Object]"
  end.

(** [v === 'lit'] against a string literal, also the test a [switch] makes
    for each [case]. *)
Definition strict_eq (v : value) (lit : string) : bool :=
  match v with
  | VStr s => (s =? lit)%string
  | _ => false
  end.

(** [recv.startsWith(p)]: only a string has the method. *)
Definition startsWith (recv : value) (p : string) : result bool :=
  match recv with
  | VStr s => Ok (String.prefix p s)
  | _ => Throw TypeError
  end.

Fixpoint zeros (d : nat) : string :=
  match d with
  | O => ""
  | S d' => "0" ++ zeros d'
  end.

(** [recv?.toFixed(d)]: skipped on null and undefined, defined on numbers,
    a TypeError on anything else. *)
Definition opt_toFixed (recv : value) (d : nat) : result value :=
  match recv with
  | VUndefined | VNull => Ok VUndefined
  | VNum n => Ok (VStr (match d with
                        | O => Z_to_string n
                        | S _ => Z_to_string n ++ "." ++ zeros d
                        end))
  | _ => Throw TypeError
  end.

(** [recv.map(f)] and [recv.slice(0, n).map(f)]: only an array has [map]. *)
Definition array_map {B} (recv : value) (f : value -> result B) : result (list B) :=
  match recv with
  | VArr items => mapM f items
  | _ => Throw TypeError
  end.

Definition slice_map {B} (recv : value) (n : nat) (f : value -> result B) : result (list B) :=
  match recv with
  | VArr items => mapM f (firstn n items)
  | _ => Throw TypeError
  end.

(** What React shows for a child [{v}]: nothing for null, undefined and
    booleans, the text of a string or a number, the children of an array in
    order; an object is refused. *)
Fixpoint reactText (v : value) : option string :=
  match v with
  | VUndefined | VNull | VBool _ => Some ""
  | VNum n => Some (Z_to_string n)
  | VStr s => Some s
  | VArr items =>
      (fix each (l : list value) : option string :=
         match l with
         | [] => Some ""
         | x :: r =>
             match reactText x, each r with
             | Some a, Some b => Some (a ++ b)
             | _, _ => None
             end
         end) items
  | VObj _ => None
  end.

(** The shapes the data model gives to an optional leaf: a number or
    nothing, a sequence or nothing. *)
Definition number_or_absent (v : value) : bool :=
  match v with
  | VUndefined | VNull | VNum _ => true
  | _ => false
  end.

Definition sequence_or_absent (v : value) : bool :=
  match v with
  | VUndefined | VNull | VArr _ => true
  | _ => false
  end.

(** The child [{v}] shows as the text [0]. *)
Definition shows_zero (v : value) : Prop := reactText v = Some "0".

(** The functions of the host the components call and the code does not
    contain: StringToNumber (used by [>=] and [>] on a string operand; [None]
    is NaN) and [toLocaleString], whose result depends on the locale. *)
Class Host : Type := {
  StringToNumber : string -> option Z;
  toLocaleString : value -> string
}.

Section Operators.
Context {host : Host}.

Definition ToNumber (v : value) : option Z :=
  match v with
  | VUndefined => None
  | VNull => Some 0
  | VBool b => Some (if b then 1 else 0)
  | VNum n => Some n
  | VStr s => StringToNumber s
  | VArr _ | VObj _ => StringToNumber (ToString v)
  end.

(** [v >= k] and [v > k] against a number literal. *)
Definition ge (v : value) (k : Z) : bool :=
  match ToNumber v with
  | Some n => k <=? n
  | None => false
  end.

Definition gt (v : value) (k : Z) : bool :=
  match ToNumber v with
  | Some n => k <? n
  | None => false
  end.

(** [recv?.toLocaleString()]. *)
Definition opt_toLocaleString (recv : value) : value :=
  if nullish recv then VUndefined else VStr (toLocaleString recv).

(** A conditional child [{c && (<div>...</div>)}]: React receives either
    the element or the falsy operand that stopped the [&&] chain. *)
Inductive slot (A : Type) : Type :=
| Shown (a : A)
| Hidden (operand : value).

(** The JSX idiom [{xs && xs.length > 0 && (... xs.map(f) ...)}]. *)
Definition guarded_map {B} (xs : value) (body : value -> result (list B))
  : result (slot (list B)) :=
  if truthy xs then
    len <- get xs "length" ;;
    if gt len 0 then rows <- body xs ;; Ok (Shown _ rows)
    else Ok (Hidden _ (VBool false))
  else Ok (Hidden _ xs).

End Operators.
Arguments Shown {A} a.
Arguments Hidden {A} operand.

(** A host for the examples: no string denotes a number, and
    [toLocaleString] prints as ToString does. *)
Definition example_host : Host :=
  {| StringToNumber := fun _ => None; toLocaleString := ToString |}.

(** A freshness slice that carries its status and flag and no numbers. *)
Definition freshness_without_numbers : value :=
  VObj [("status", VStr "Fresh"); ("needs_update", VBool false)].

(* ================================================================== *)
(** ** components/SEOScoreCard.jsx *)

Module SEOScoreCard.
Section Component.
Context {host : Host}.

Definition getGradeColor (grade : value) : result string :=
  a <- startsWith grade "A" ;;
  if a then Ok "text-green-600 bg-green-100" else
  b <- startsWith grade "B" ;;
  if b then Ok "text-blue-600 bg-blue-100" else
  c <- startsWith grade "C" ;;
  if c then Ok "text-orange-600 bg-orange-100" else
  Ok "text-red-600 bg-red-100".

Definition getScoreColor (score : value) : string :=
  if ge score 85 then "text-green-600"
  else if ge score 70 then "text-blue-600"
  else if ge score 50 then "text-orange-600"
  else "text-red-600".

Record category : Type := { key : string; label : string; max : Z }.

Definition categories : list category :=
  [ {| key := "title"; label := "Title Optimization"; max := 20 |};
    {| key := "description"; label := "Meta Description"; max := 20 |};
    {| key := "keywords"; label := "Keywords"; max := 20 |};
    {| key := "content_quality"; label := "Content Quality"; max := 20 |};
    {| key := "technical"; label := "Technical SEO"; max := 20 |} ].

(** One row of the breakdown: the label and the children of
    [{score}/{max}].  The bar under it takes its width and colour from
    [(score / max) * 100], a floating-point quotient, and is not part of
    the view. *)
Record row : Type := {
  row_key : string;
  row_label : string;
  row_score : value;
  row_max : Z
}.

Definition category_row (breakdown : value) (c : category) : row :=
  let score := or_else (optget breakdown (key c)) (VNum 0) in
  {| row_key := key c; row_label := label c; row_score := score; row_max := max c |}.

Record view : Type := {
  grade_class : string;        (* getGradeColor(grade) *)
  grade_child : value;         (* {grade} *)
  score_class : string;        (* getScoreColor(overall_score) *)
  score_child : value;         (* {overall_score} *)
  bar_class : string;          (* the inline ternary on overall_score *)
  bar_width : string;          (* `${overall_score}%` *)
  rows : list row;
  recommendation_items : slot (list value)
}.

Definition SEOScoreCard (seoScore : value) : result (option view) :=
  if negb (truthy seoScore) then Ok None else
  let overall_score := optget seoScore "overall_score" in
  let breakdown := optget seoScore "breakdown" in
  let grade := optget seoScore "grade" in
  let recommendations := optget seoScore "recommendations" in
  gc <- getGradeColor grade ;;
  let bar :=
    if ge overall_score 85 then "bg-green-600"
    else if ge overall_score 70 then "bg-blue-600"
    else if ge overall_score 50 then "bg-orange-600"
    else "bg-red-600" in
  recs <- guarded_map recommendations (fun xs => array_map xs (fun rec => Ok rec)) ;;
  Ok (Some {| grade_class := gc;
              grade_child := grade;
              score_class := getScoreColor overall_score;
              score_child := overall_score;
              bar_class := bar;
              bar_width := ToString overall_score ++ "%";
              rows := map (category_row breakdown) categories;
              recommendation_items := recs |}).

(** The scores of the breakdown: each as the value read from the slice,
    paired with the child shown for it. *)
Definition numeric_leaves (seoScore : value) (v : view) : list (value * value) :=
  map (fun r => (optget (optget seoScore "breakdown") (row_key r), row_score r)) (rows v).

End Component.
End SEOScoreCard.

(* ================================================================== *)
(** ** components/ContentFreshness.jsx *)

Module ContentFreshness.
Section Component.
Context {host : Host}.

Definition getStatusColor (status : value) : string :=
  if strict_eq status "Very Fresh" || strict_eq status "Fresh"
  then "text-green-600 bg-green-100"
  else if strict_eq status "Recent" then "text-blue-600 bg-blue-100"
  else if strict_eq status "Moderate" then "text-orange-600 bg-orange-100"
  else if strict_eq status "Aging" || strict_eq status "Outdated"
  then "text-red-600 bg-red-100"
  else "text-gray-600 bg-gray-100".

Definition getScoreColor (score : value) : string :=
  if ge score 90 then "from-green-500 to-green-600"
  else if ge score 75 then "from-blue-500 to-blue-600"
  else if ge score 60 then "from-orange-500 to-orange-600"
  else "from-red-500 to-red-600".

(** The lower half of the card: the alert with its optional button (the
    argument [onRefresh] is called with), or the notice. *)
Inductive notice : Type :=
| UpdateRecommended (refresh_button : option value)
| UpToDate.

Record view : Type := {
  score_child : value;         (* {freshness_score} *)
  status_class : string;       (* getStatusColor(status) *)
  status_child : value;        (* {status} *)
  bar_gradient : string;       (* getScoreColor(freshness_score) *)
  bar_width : string;          (* `${freshness_score}%` *)
  age_text : string;
  update_notice : notice
}.

(** [onRefresh] is [true] when the page passed a handler. *)
Definition ContentFreshness (freshness contentId : value) (onRefresh : bool)
  : option view :=
  if negb (truthy freshness) then None else
  let freshness_score := optget freshness "freshness_score" in
  let status := optget freshness "status" in
  let days_old := optget freshness "days_old" in
  let needs_update := optget freshness "needs_update" in
  Some {| score_child := freshness_score;
          status_class := getStatusColor status;
          status_child := status;
          bar_gradient := getScoreColor freshness_score;
          bar_width := ToString freshness_score ++ "%";
          age_text :=
            match days_old with
            | VNum 0 => "Created today"
            | _ => ToString days_old ++ " day"
                     ++ (if gt days_old 1 then "s" else "") ++ " old"
            end;
          update_notice :=
            if truthy needs_update
            then UpdateRecommended (if onRefresh then Some contentId else None)
            else UpToDate |}.

End Component.
End ContentFreshness.

(* ================================================================== *)
(** ** components/MetaPreview.jsx *)

Module MetaPreview.

Record view : Type := {
  url_display : value;             (* {google?.url_display}, shown three times *)
  google_title : value;            (* {google?.title} *)
  google_description : value;      (* {google?.description} *)
  title_class : string;
  title_length : value;            (* {character_counts?.title_length} *)
  title_mark : string;
  description_class : string;
  description_length : value;      (* {character_counts?.description_length} *)
  description_mark : string;
  og_title : value;
  og_description : value;
  twitter_title : value;
  twitter_description : value
}.

(** The props [title], [description] and [url] are received and never
    read. *)
Definition MetaPreview (metaPreview title description url : value) : option view :=
  if negb (truthy metaPreview) then None else
  let google := optget metaPreview "google" in
  let social := optget metaPreview "social" in
  let character_counts := optget metaPreview "character_counts" in
  let title_optimal := truthy (optget character_counts "title_optimal") in
  let description_optimal := truthy (optget character_counts "description_optimal") in
  Some {| url_display := optget google "url_display";
          google_title := optget google "title";
          google_description := optget google "description";
          title_class := if title_optimal then "text-green-600" else "text-orange-600";
          title_length := optget character_counts "title_length";
          title_mark := if title_optimal then "✓" else "⚠";
          description_class :=
            if description_optimal then "text-green-600" else "text-orange-600";
          description_length := optget character_counts "description_length";
          description_mark := if description_optimal then "✓" else "⚠";
          og_title := optget social "og_title";
          og_description := optget social "og_description";
          twitter_title := optget social "twitter_title";
          twitter_description := optget social "twitter_description" |}.

End MetaPreview.

(* ================================================================== *)
(** ** components/TopicClusters.jsx *)

Module TopicClusters.
Section Component.
Context {host : Host}.

Record cluster_card : Type := {
  topic : value;                   (* {cluster.topic} *)
  relationship : value;            (* {cluster.relationship} *)
  keywords : slot (list value)
}.

Definition render_cluster (cluster : value) : result cluster_card :=
  t <- get cluster "topic" ;;
  r <- get cluster "relationship" ;;
  ks <- get cluster "keywords" ;;
  kws <- guarded_map ks (fun xs => array_map xs (fun kw => Ok kw)) ;;
  Ok {| topic := t; relationship := r; keywords := kws |}.

Record view : Type := {
  pillar : value;                  (* {pillar_topic} *)
  pillar_keyword_chips : slot (list value);
  clusters : slot (list cluster_card)
}.

Definition TopicClusters (topicClusters : value) : result (option view) :=
  if negb (truthy topicClusters) || negb (truthy (optget topicClusters "pillar_topic"))
  then Ok None else
  let pillar_topic := optget topicClusters "pillar_topic" in
  let pillar_keywords := optget topicClusters "pillar_keywords" in
  let cluster_topics := optget topicClusters "cluster_topics" in
  chips <- guarded_map pillar_keywords (fun xs => array_map xs (fun kw => Ok kw)) ;;
  cards <- guarded_map cluster_topics (fun xs => array_map xs render_cluster) ;;
  Ok (Some {| pillar := pillar_topic;
              pillar_keyword_chips := chips;
              clusters := cards |}).

End Component.
End TopicClusters.

(* ================================================================== *)
(** ** components/TrafficInsights.jsx *)

Module TrafficInsights.
Section Component.
Context {host : Host}.

Definition getTierColor (tier : value) : string :=
  if strict_eq tier "High" then "text-green-600 bg-green-100"
  else if strict_eq tier "Medium" then "text-orange-600 bg-orange-100"
  else "text-blue-600 bg-blue-100".

Record coverage_panel : Type := {
  coverage_text : value;           (* {keywordGap.coverage_score?.toFixed(0) || 0}, followed by % *)
  coverage_width : string;         (* `${keywordGap.coverage_score || 0}%` *)
  covered : value;
  missing : value;
  total_expected : value;
  missing_keyword_chips : slot (list value)
}.

Record featured_row : Type := {
  featured_optimized : bool;
  featured_text : string
}.

Record list_row : Type := {
  list_optimized : bool;
  list_count : value;              (* {serp.list_snippet.count || 0} *)
  list_text : value
}.

Record serp_panel : Type := {
  featured_snippet : slot featured_row;
  list_snippet : slot list_row
}.

Record view : Type := {
  low : value;
  mid : value;
  high : value;
  tier_class : string;             (* getTierColor(traffic_tier) *)
  tier_child : value;              (* {traffic_tier}, followed by Volume *)
  keyword_count : value;
  quality_score : value;
  readability_score : value;
  content_length : value;
  coverage : slot coverage_panel;
  serp_features : slot serp_panel;
  recommendation_items : slot (list value)
}.

Definition render_coverage (keywordGap : value) : result (slot coverage_panel) :=
  if negb (truthy keywordGap) then Ok (Hidden keywordGap) else
  fixed <- opt_toFixed (optget keywordGap "coverage_score") 0 ;;
  chips <- guarded_map (optget keywordGap "missing_keywords")
             (fun xs => slice_map xs 8 (fun kw => Ok kw)) ;;
  Ok (Shown {| coverage_text := or_else fixed (VNum 0);
               coverage_width :=
                 ToString (or_else (optget keywordGap "coverage_score") (VNum 0)) ++ "%";
               covered := or_else (optget keywordGap "covered") (VNum 0);
               missing := or_else (optget keywordGap "missing") (VNum 0);
               total_expected := or_else (optget keywordGap "total_expected") (VNum 0);
               missing_keyword_chips := chips |}).

Definition render_featured (serp : value) : slot featured_row :=
  let fs := optget serp "featured_snippet" in
  if negb (truthy fs) then Hidden fs else
  let optimized := truthy (optget fs "optimized") in
  Shown {| featured_optimized := optimized;
           featured_text :=
             if optimized then "Content is optimized for featured snippets"
             else "Add clear definitions in first paragraph" |}.

Definition render_list (serp : value) : slot list_row :=
  let ls := optget serp "list_snippet" in
  if negb (truthy ls) then Hidden ls else
  let optimized := truthy (optget ls "optimized") in
  Shown {| list_optimized := optimized;
           list_count := or_else (optget ls "count") (VNum 0);
           list_text :=
             if optimized then VStr "Great! Lists are well structured"
             else optget ls "recommendation" |}.

Definition render_serp (serp : value) : slot serp_panel :=
  if negb (truthy serp) then Hidden serp else
  Shown {| featured_snippet := render_featured serp;
           list_snippet := render_list serp |}.

(** The prop [freshness] is received and never read. *)
Definition TrafficInsights (trafficPrediction keywordGap serp freshness : value)
  : result (option view) :=
  if negb (truthy trafficPrediction) then Ok None else
  let estimated_monthly_traffic := optget trafficPrediction "estimated_monthly_traffic" in
  let traffic_tier := optget trafficPrediction "traffic_tier" in
  let factors := optget trafficPrediction "factors" in
  let recommendations := optget trafficPrediction "recommendations" in
  quality <- opt_toFixed (optget factors "quality_score") 1 ;;
  readability <- opt_toFixed (optget factors "readability_score") 0 ;;
  gap <- render_coverage keywordGap ;;
  recs <- guarded_map recommendations (fun xs => array_map xs (fun rec => Ok rec)) ;;
  Ok (Some {|
    low := or_else (opt_toLocaleString (optget estimated_monthly_traffic "low")) (VNum 0);
    mid := or_else (opt_toLocaleString (optget estimated_monthly_traffic "mid")) (VNum 0);
    high := or_else (opt_toLocaleString (optget estimated_monthly_traffic "high")) (VNum 0);
    tier_class := getTierColor traffic_tier;
    tier_child := traffic_tier;
    keyword_count := or_else (optget factors "keyword_count") (VNum 0);
    quality_score := or_else quality (VNum 0);
    readability_score := or_else readability (VNum 0);
    content_length := or_else (optget factors "content_length") (VNum 0);
    coverage := gap;
    serp_features := render_serp serp;
    recommendation_items := recs |}).

(** The optional numeric leaves the component displays: each as the
    value read from the props, paired with the child shown for it. *)
Definition numeric_leaves (trafficPrediction keywordGap serp : value) (v : view)
  : list (value * value) :=
  let estimated_monthly_traffic := optget trafficPrediction "estimated_monthly_traffic" in
  let factors := optget trafficPrediction "factors" in
  ([ (optget estimated_monthly_traffic "low", low v);
     (optget estimated_monthly_traffic "mid", mid v);
     (optget estimated_monthly_traffic "high", high v);
     (optget factors "keyword_count", keyword_count v);
     (optget factors "quality_score", quality_score v);
     (optget factors "readability_score", readability_score v);
     (optget factors "content_length", content_length v) ]
   ++ match coverage v with
      | Shown panel =>
          [ (optget keywordGap "coverage_score", coverage_text panel);
            (optget keywordGap "covered", covered panel);
            (optget keywordGap "missing", missing panel);
            (optget keywordGap "total_expected", total_expected panel) ]
      | Hidden _ => []
      end
   ++ match serp_features v with
      | Shown panel =>
          match list_snippet panel with
          | Shown r => [ (optget (optget serp "list_snippet") "count", list_count r) ]
          | Hidden _ => []
          end
      | Hidden _ => []
      end)%list.

(** Props as the data model shapes them: a present prediction whose
    decimal leaves are numbers or absent and whose lists are sequences or
    absent; the same for the keyword gap, when there is one. *)
Definition well_shaped (trafficPrediction keywordGap : value) : bool :=
  truthy trafficPrediction
  && number_or_absent (optget (optget trafficPrediction "factors") "quality_score")
  && number_or_absent (optget (optget trafficPrediction "factors") "readability_score")
  && sequence_or_absent (optget trafficPrediction "recommendations")
  && (negb (truthy keywordGap)
      || (number_or_absent (optget keywordGap "coverage_score")
          && sequence_or_absent (optget keywordGap "missing_keywords"))).

End Component.
End TrafficInsights.

(* ================================================================== *)
(** ** Requests *)

(** How an awaited request ends: with a response, or with a rejection
    reason. *)
Inductive settled : Type :=
| Resolved (response : value)
| Rejected (reason : value).

(** What a [catch] clause receives: the reason of a rejected request, or an
    exception raised inside the [try] block. *)
Inductive caught : Type :=
| Reason (reason : value)
| Raised (e : exn).

(* ================================================================== *)
(** ** pages/AddContent.jsx *)

Module AddContent.

Record state : Type := {
  inputType : string;
  url : string;
  title : string;
  content : string;
  loading : bool
}.

(** useState('url'), useState(''), ..., useState(false). *)
Definition initial : state :=
  {| inputType := "url"; url := ""; title := ""; content := ""; loading := false |}.

Inductive effect : Type :=
| PreventDefault
| ToastError (message : value)
| ToastSuccess (message : string)
| SetLoading (b : bool)
| Post (endpoint : string) (payload : value)
| ConsoleError (label : string) (error : value)
| SetTimeout (navigate : result string) (ms : Z)
| Uncaught (e : exn).

Section Page.
Variable API : string.

(** The callback handed to setTimeout: the path it navigates to, or the
    exception reading [response.data.id] raises. *)
Definition navigate_target (response : value) : result string :=
  data <- get response "data" ;;
  i <- get data "id" ;;
  Ok ("/content/" ++ ToString i).

Definition payload_of (s : state) : value :=
  VObj (("input_type", VStr (inputType s))
          :: (if (inputType s =? "url")%string
              then [("url", VStr (url s))]
              else [("title", VStr (title s)); ("content", VStr (content s))])).

(** The body of the [catch] clause. *)
Definition on_failure (error : value) : list effect :=
  ConsoleError "Error adding content:" error ::
  match get error "response" with
  | Throw e => [SetLoading false; Uncaught e]
  | Ok response =>
      [ToastError (or_else (optget (optget response "data") "detail")
                           (VStr "Failed to add content"));
       SetLoading false]
  end.

(** [handleSubmit(e)]; [outcome] is how the awaited [axios.post] ends. *)
Definition handleSubmit (s : state) (outcome : settled) : list effect :=
  PreventDefault ::
  if (inputType s =? "url")%string && negb (truthy (VStr (url s))) then
    [ToastError (VStr "Please enter a URL")]
  else if (inputType s =? "manual")%string
          && (negb (truthy (VStr (title s))) || negb (truthy (VStr (content s)))) then
    [ToastError (VStr "Please fill in all fields")]
  else
    SetLoading true ::
    Post (API ++ "/content") (payload_of s) ::
    match outcome with
    | Resolved response =>
        [ToastSuccess "Content added successfully! Generating traffic strategies...";
         SetTimeout (navigate_target response) 1500;
         SetLoading false]
    | Rejected error => on_failure error
    end.

(** The state after the handler's setLoading calls. *)
Fixpoint after (effects : list effect) (s : state) : state :=
  match effects with
  | [] => s
  | SetLoading b :: rest =>
      after rest {| inputType := inputType s; url := url s; title := title s;
                    content := content s; loading := b |}
  | _ :: rest => after rest s
  end.

(** The submit button carries [disabled={loading}]. *)
Definition submit_disabled (s : state) : bool := loading s.

Definition is_post (e : effect) : bool :=
  match e with Post _ _ => true | _ => false end.

Definition is_navigation (e : effect) : bool :=
  match e with SetTimeout _ _ => true | _ => false end.

Definition posts (effects : list effect) : list effect := filter is_post effects.

End Page.

(** The validation rule in the words of the specification: url mode
    requires a non-empty url, manual mode a non-empty title and a
    non-empty content. *)
Definition validation_passes (s : state) : bool :=
  if (inputType s =? "url")%string then negb (url s =? "")%string
  else negb (title s =? "")%string && negb (content s =? "")%string.

End AddContent.

(* ================================================================== *)
(** ** pages/Dashboard.jsx *)

Module Dashboard.

Record state : Type := {
  analytics : value;
  contents : value;
  loading : bool;
  deleteDialogOpen : bool;
  contentToDelete : value
}.

(** useState(null), useState([]), useState(true), useState(false),
    useState(null). *)
Definition initial : state :=
  {| analytics := VNull; contents := VArr []; loading := true;
     deleteDialogOpen := false; contentToDelete := VNull |}.

Inductive effect : Type :=
| Get (endpoint : string)
| Delete (endpoint : string)
| ToastSuccess (message : string)
| ToastError (message : string)
| ConsoleError (label : string) (error : caught).

Section Page.
Variable API : string.

(** [fetchData()] up to its [await]: setLoading(true) and the two GET
    requests handed to Promise.all. *)
Definition fetchData_begin (s : state) : state * list effect :=
  ({| analytics := analytics s; contents := contents s; loading := true;
      deleteDialogOpen := deleteDialogOpen s; contentToDelete := contentToDelete s |},
   [Get (API ++ "/analytics"); Get (API ++ "/content")]).

(** [fetchData()] from the settlement of Promise.all on: a pair of
    responses, or the first rejection. *)
Definition fetchData_end (s : state) (joined : settled * settled) : state * list effect :=
  let finish (a c : value) :=
    {| analytics := a; contents := c; loading := false;
       deleteDialogOpen := deleteDialogOpen s; contentToDelete := contentToDelete s |} in
  match joined with
  | (Resolved analyticsRes, Resolved contentsRes) =>
      match get analyticsRes "data" with
      | Throw e =>
          (finish (analytics s) (contents s),
           [ConsoleError "Error fetching data:" (Raised e); ToastError "Failed to load data"])
      | Ok a =>
          match get contentsRes "data" with
          | Throw e =>
              (finish a (contents s),
               [ConsoleError "Error fetching data:" (Raised e);
                ToastError "Failed to load data"])
          | Ok c => (finish a c, [])
          end
      end
  | (Rejected error, _) | (Resolved _, Rejected error) =>
      (finish (analytics s) (contents s),
       [ConsoleError "Error fetching data:" (Reason error); ToastError "Failed to load data"])
  end.

(** [handleDelete()]; [outcome] is how the awaited [axios.delete] ends.
    The call of [fetchData] is not awaited: the handler returns once
    [fetchData] has reached its own [await]. *)
Definition handleDelete (s : state) (outcome : settled) : state * list effect :=
  if negb (truthy (contentToDelete s)) then (s, []) else
  let request := Delete (API ++ "/content/" ++ ToString (contentToDelete s)) in
  match outcome with
  | Resolved _ =>
      let s1 := {| analytics := analytics s; contents := contents s; loading := loading s;
                   deleteDialogOpen := false; contentToDelete := VNull |} in
      let '(s2, fetches) := fetchData_begin s1 in
      (s2, request :: ToastSuccess "Content deleted successfully" :: fetches)
  | Rejected error =>
      (s, [request; ConsoleError "Error deleting content:" (Reason error);
           ToastError "Failed to delete content"])
  end.

Definition openDeleteDialog (s : state) (contentId : value) : state :=
  {| analytics := analytics s; contents := contents s; loading := loading s;
     deleteDialogOpen := true; contentToDelete := contentId |}.

(** Modelled from the spec: AlertDialogCancel, of components/ui/alert-dialog
    (not among the sources).  The dialog is wired with
    [onOpenChange={setDeleteDialogOpen}]; Cancel leaves the confirmation step
    without proceeding, so it only closes the dialog. *)
Definition cancelDelete (s : state) : state * list effect :=
  ({| analytics := analytics s; contents := contents s; loading := loading s;
      deleteDialogOpen := false; contentToDelete := contentToDelete s |}, []).

(** What the user does on the list and in the dialog. *)
Inductive click : Type :=
| Trash (contentId : value)      (* the button of a card: openDeleteDialog(content.id) *)
| Cancel                         (* AlertDialogCancel *)
| Confirm (outcome : settled).   (* AlertDialogAction, onClick={handleDelete} *)

Definition on_click (s : state) (c : click) : state * list effect :=
  match c with
  | Trash contentId => (openDeleteDialog s contentId, [])
  | Cancel => cancelDelete s
  | Confirm outcome => handleDelete s outcome
  end.

Definition is_delete (e : effect) : bool :=
  match e with Delete _ => true | _ => false end.

Definition is_request (e : effect) : bool :=
  match e with Get _ | Delete _ => true | _ => false end.

End Page.
End Dashboard.

(* ================================================================== *)
(** ** pages/EnhancedContentDetails.jsx *)

Module EnhancedContentDetails.

Inductive effect : Type :=
| Get (endpoint : string)
| ToastError (message : string)
| ConsoleError (label : string) (error : caught).

(** The page state, followed by the state of one call of [fetchContent]:
    the two requests handed to Promise.all ([None] while pending) and
    whether the call is still suspended on its [await]. *)
Record page : Type := {
  content : value;
  queries : value;
  loading : bool;
  contentReq : option settled;
  queriesReq : option settled;
  awaiting : bool
}.

Inductive which : Type := ContentReq | QueriesReq.

(** The network answers one of the two requests. *)
Inductive event : Type := Settle (w : which) (s : settled).

Inductive screen : Type := Spinner | NotFound | Details.

Definition render (p : page) : screen :=
  if loading p then Spinner
  else if negb (truthy (content p)) then NotFound
  else Details.

Section Page.
Variable API : string.
Variable id : value.

(** [fetchContent()] up to its [await]. *)
Definition fetchContent_begin (p : page) : page * list effect :=
  ({| content := content p; queries := queries p; loading := true;
      contentReq := None; queriesReq := None; awaiting := true |},
   [Get (API ++ "/content/" ++ ToString id); Get (API ++ "/queries/" ++ ToString id)]).

(** useState(null), useState([]), useState(true), then the effect that
    calls [fetchContent]. *)
Definition mount : page * list effect :=
  fetchContent_begin
    {| content := VNull; queries := VArr []; loading := true;
       contentReq := None; queriesReq := None; awaiting := false |}.

(** The [catch] and [finally] clauses. *)
Definition on_failure (p : page) (error : caught) : page * list effect :=
  ({| content := content p; queries := queries p; loading := false;
      contentReq := contentReq p; queriesReq := queriesReq p; awaiting := false |},
   [ConsoleError "Error fetching content:" error; ToastError "Failed to load content"]).

(** The rest of the [try] block once Promise.all has both responses. *)
Definition on_both (p : page) (contentRes queriesRes : value) : page * list effect :=
  match get contentRes "data" with
  | Throw e => on_failure p (Raised e)
  | Ok c =>
      let p1 := {| content := c; queries := queries p; loading := loading p;
                   contentReq := contentReq p; queriesReq := queriesReq p;
                   awaiting := awaiting p |} in
      match get queriesRes "data" with
      | Throw e => on_failure p1 (Raised e)
      | Ok q =>
          ({| content := c; queries := q; loading := false;
              contentReq := contentReq p; queriesReq := queriesReq p;
              awaiting := false |}, [])
      end
  end.

Definition request (w : which) (p : page) : option settled :=
  match w with
  | ContentReq => contentReq p
  | QueriesReq => queriesReq p
  end.

Definition record (w : which) (s : settled) (p : page) : page :=
  match w with
  | ContentReq =>
      {| content := content p; queries := queries p; loading := loading p;
         contentReq := Some s; queriesReq := queriesReq p; awaiting := awaiting p |}
  | QueriesReq =>
      {| content := content p; queries := queries p; loading := loading p;
         contentReq := contentReq p; queriesReq := Some s; awaiting := awaiting p |}
  end.

(** One settlement.  A request settles once.  Promise.all rejects with the
    first rejection, without waiting for the other request, and fulfils
    when both requests have; once it has settled, the later answer of the
    other request reaches no code of the page. *)
Definition step (p : page) (e : event) : page * list effect :=
  let 'Settle w s := e in
  match request w p with
  | Some _ => (p, [])
  | None =>
      let p1 := record w s p in
      if negb (awaiting p1) then (p1, []) else
      match s with
      | Rejected error => on_failure p1 (Reason error)
      | Resolved _ =>
          match contentReq p1, queriesReq p1 with
          | Some (Resolved contentRes), Some (Resolved queriesRes) =>
              on_both p1 contentRes queriesRes
          | _, _ => (p1, [])
          end
      end
  end.

Fixpoint run (p : page) (events : list event) : page * list effect :=
  match events with
  | [] => (p, [])
  | e :: rest =>
      let '(p1, out1) := step p e in
      let '(p2, out2) := run p1 rest in
      (p2, (out1 ++ out2)%list)
  end.

Definition pending (r : option settled) : bool :=
  match r with None => true | Some _ => false end.

Definition resolved (r : option settled) : bool :=
  match r with Some (Resolved _) => true | _ => false end.

Definition rejected (r : option settled) : bool :=
  match r with Some (Rejected _) => true | _ => false end.

(** The states the page goes through after mounting. *)
Definition reachable (p : page) : Prop :=
  exists events, p = fst (run (fst mount) events).

(** What holds of the page all along a first load.  While [fetchContent]
    is suspended the spinner is up, nothing has been stored yet, no request
    has failed and one at least is pending.  Once it has returned the
    spinner is down, a stored content means two answers, and either a
    request has failed or both have been answered. *)
Definition first_load_invariant (p : page) : Prop :=
  (awaiting p = true ->
   loading p = true /\ content p = VNull
   /\ rejected (contentReq p) = false /\ rejected (queriesReq p) = false
   /\ (pending (contentReq p) = true \/ pending (queriesReq p) = true))
  /\ (awaiting p = false ->
      loading p = false
      /\ (truthy (content p) = true ->
          resolved (contentReq p) = true /\ resolved (queriesReq p) = true)
      /\ (rejected (contentReq p) = true \/ rejected (queriesReq p) = true
          \/ (pending (contentReq p) = false /\ pending (queriesReq p) = false))).

End Page.
End EnhancedContentDetails.

(* ================================================================== *)
(** ** components/ExportModal.jsx

The two copy actions and the [copied] state they share.  [handleExport]
(a download through fetch, a blob and a transient anchor) is not part of
this model. *)

Module ExportModal.

Inductive effect : Type :=
| ClipboardWrite (text : string)
| ToastSuccess (message : string).

(** The [copied] state and the timeouts not yet run, by the time (in
    milliseconds) at which each is due.  Every timeout of the component
    runs [setCopied(null)]. *)
Record state : Type := {
  copied : value;
  timers : list Z
}.

(** useState(null). *)
Definition initial : state := {| copied := VNull; timers := [] |}.

Section Component.
Variable origin : string.        (* window.location.origin *)
Variable contentId : value.

(** The two handlers, called at time [now]; the clipboard is assumed to be
    available. *)
Definition copyShareLink (now : Z) (s : state) : state * list effect :=
  let shareUrl := origin ++ "/share/" ++ ToString contentId in
  ({| copied := VStr "link"; timers := (timers s ++ [now + 2000])%list |},
   [ClipboardWrite shareUrl; ToastSuccess "Share link copied!"]).

Definition copySitemapUrl (now : Z) (s : state) : state * list effect :=
  let sitemapUrl := origin ++ "/api/sitemap.xml" in
  ({| copied := VStr "sitemap"; timers := (timers s ++ [now + 2000])%list |},
   [ClipboardWrite sitemapUrl; ToastSuccess "Sitemap URL copied!"]).

(** The clock reaches [now]: the timeouts due by then run. *)
Definition elapse (now : Z) (s : state) : state :=
  let due := filter (fun t => t <=? now) (timers s) in
  let later := filter (fun t => negb (t <=? now)) (timers s) in
  {| copied := match due with [] => copied s | _ :: _ => VNull end;
     timers := later |}.

(** The icon of each button: the check mark when [copied === 'link']
    (resp. ['sitemap']), the copy icon otherwise. *)
Definition link_acknowledged (s : state) : bool :=
  strict_eq (copied s) "link".

Definition sitemap_acknowledged (s : state) : bool :=
  strict_eq (copied s) "sitemap".

Inductive click : Type := ShareLink | SitemapUrl.

Definition on_click (now : Z) (c : click) (s : state) : state * list effect :=
  match c with
  | ShareLink => copyShareLink now s
  | SitemapUrl => copySitemapUrl now s
  end.

(** A session: clicks with their times, in order; the state is observed at
    time [at_], after the clicks made up to then. *)
Fixpoint play (clicks : list (Z * click)) (at_ : Z) (s : state) : state :=
  match clicks with
  | [] => elapse at_ s
  | (t, c) :: rest =>
      if t <=? at_ then play rest at_ (fst (on_click t c (elapse t s)))
      else elapse at_ s
  end.

End Component.
End ExportModal.

(* ================================================================== *)
(** ** More operators *)

(** [v === k] against a number literal. *)
Definition strict_eq_num (v : value) (k : Z) : bool :=
  match v with
  | VNum n => n =? k
  | _ => false
  end.

Definition is_string (v : value) : bool :=
  match v with VStr _ => true | _ => false end.

(** [recv.substring(0, n)]: only a string has the method.  A string of the
    model is its sequence of code units. *)
Definition substring_from_start (recv : value) (n : nat) : result string :=
  match recv with
  | VStr s => Ok (String.substring 0 n s)
  | _ => Throw TypeError
  end.



Section MoreOperators.
Context {host : Host}.

(** The JSX idiom [{xs && xs.length > 0 && (<span>...</span>)}], for a
    block that is not a mapped list. *)
Definition guarded_block {B} (xs : value) (body : value -> result B)
  : result (slot B) :=
  if truthy xs then
    len <- get xs "length" ;;
    if gt len 0 then b <- body xs ;; Ok (Shown b)
    else Ok (Hidden (VBool false))
  else Ok (Hidden xs).

End MoreOperators.

(* ================================================================== *)
(** ** components/ExportModal.jsx: handleExport *)

Module ExportModalDownload.

Inductive effect : Type :=
| Fetch (url : string)
| ReadBlob                                   (* response.blob() *)
| CreateObjectURL (url : string)             (* the URL createObjectURL returned *)
| CreateAnchor (href download : string)      (* createElement('a'), a.href, a.download *)
| AppendChild
| Click
| RevokeObjectURL (url : string)
| RemoveChild
| ToastSuccess (message : string)
| ConsoleError (label : string) (error : caught)
| ToastError (message : string).

Section Component.
Variable API : string.
Variable contentId : value.

(** The [catch] clause. *)
Definition on_failure (error : caught) : list effect :=
  [ConsoleError "Export error:" error; ToastError "Failed to export"].








End Component.
End ExportModalDownload.

(* ================================================================== *)
(** ** pages/Dashboard.jsx: the rendered page and a session of clicks *)

Module DashboardRender.
Import Dashboard.

Record tiles : Type := {
  total_content : value;           (* {analytics?.total_content || 0} *)
  total_queries : value;           (* {analytics?.total_queries || 0} *)
  avg_performance_score : value;   (* {analytics?.avg_performance_score || 0}, followed by % *)
  avg_readability_score : value    (* {analytics?.avg_readability_score?.toFixed(0) || 0} *)
}.

Record card : Type := {
  card_key : value;                (* key={content.id} *)
  card_link : string;              (* navigate(`/content/${content.id}`) *)
  card_title : value;              (* {content.optimized_title || content.title} *)
  card_score : value;              (* SEO: {content.performance_score}% *)
  card_readability : slot value;
  card_description : value;
  card_keywords : slot (list value);
  card_views : value;              (* {content.views || 0} views *)
  card_social_posts : slot value;  (* {content.social_posts.length} social posts *)
  card_faqs : slot value;          (* {content.faqs.length} FAQs *)
  card_url : slot value;           (* href={content.url} *)
  card_delete : value              (* openDeleteDialog(content.id) *)
}.

Inductive library : Type :=
| EmptyState
| Cards (cards : list card).

Record view : Type := {
  stat_tiles : tiles;
  chart : slot value;              (* <BarChart data={analytics.top_performing}> *)
  content_list : library
}.

Inductive screen : Type :=
| Spinner
| Loaded (v : view).

Section Page.
Context {host : Host}.
Variable API : string.

(** [content.optimized_description || content.content.substring(0, 150) + '...']. *)
Definition description_of (content : value) : result value :=
  let optimized := optget content "optimized_description" in
  if truthy optimized then Ok optimized else
  s <- substring_from_start (optget content "content") 150 ;;
  Ok (VStr (s ++ "...")).

(** [{content.keywords && content.keywords.slice(0, 5).map(...)}]. *)
Definition keywords_of (content : value) : result (slot (list value)) :=
  let keywords := optget content "keywords" in
  if truthy keywords then
    chips <- slice_map keywords 5 (fun keyword => Ok keyword) ;; Ok (Shown chips)
  else Ok (Hidden keywords).

Definition count_of (xs : value) : result (slot value) :=
  guarded_block xs (fun ys => get ys "length").

(** One element of [contents.map((content, index) => ...)]. *)
Definition render_card (content : value) : result card :=
  i <- get content "id" ;;
  let readability := optget (optget content "content_optimization") "readability_score" in
  description <- description_of content ;;
  keywords <- keywords_of content ;;
  social <- count_of (optget content "social_posts") ;;
  faqs <- count_of (optget content "faqs") ;;
  Ok {| card_key := i;
        card_link := "/content/" ++ ToString i;
        card_title := or_else (optget content "optimized_title") (optget content "title");
        card_score := optget content "performance_score";
        card_readability := if truthy readability then Shown readability else Hidden readability;
        card_description := description;
        card_keywords := keywords;
        card_views := or_else (optget content "views") (VNum 0);
        card_social_posts := social;
        card_faqs := faqs;
        card_url := if truthy (optget content "url")
                    then Shown (optget content "url")
                    else Hidden (optget content "url");
        card_delete := i |}.

(** [{contents.length === 0 ? (empty state) : (contents.map(...))}]. *)
Definition render_library (contents : value) : result library :=
  len <- get contents "length" ;;
  if strict_eq_num len 0 then Ok EmptyState else
  cards <- array_map contents render_card ;;
  Ok (Cards cards).

Definition render_tiles (analytics : value) : result tiles :=
  readability <- opt_toFixed (optget analytics "avg_readability_score") 0 ;;
  Ok {| total_content := or_else (optget analytics "total_content") (VNum 0);
        total_queries := or_else (optget analytics "total_queries") (VNum 0);
        avg_performance_score := or_else (optget analytics "avg_performance_score") (VNum 0);
        avg_readability_score := or_else readability (VNum 0) |}.

(** [{analytics?.top_performing && analytics.top_performing.length > 0 && (...)}]. *)
Definition render_chart (analytics : value) : result (slot value) :=
  guarded_block (optget analytics "top_performing") (fun data => Ok data).

(** What the component returns for a state. *)
Definition Dashboard (s : state) : result screen :=
  if loading s then Ok Spinner else
  t <- render_tiles (analytics s) ;;
  c <- render_chart (analytics s) ;;
  l <- render_library (contents s) ;;
  Ok (Loaded {| stat_tiles := t; chart := c; content_list := l |}).

(** A session on the list and in the dialog: the clicks in order, each with
    the effects it has. *)
Fixpoint run (s : state) (clicks : list click) : state * list effect :=
  match clicks with
  | [] => (s, [])
  | c :: rest =>
      let '(s1, out1) := on_click API s c in
      let '(s2, out2) := run s1 rest in
      (s2, (out1 ++ out2)%list)
  end.

(** A record of the list as the backend sends it: an object with a
    description or a text, and with sequences (or nothing) for its keywords,
    social posts and FAQs. *)
Definition record_ok (content : value) : bool :=
  negb (nullish content)
  && (truthy (optget content "optimized_description")
      || is_string (optget content "content"))
  && sequence_or_absent (optget content "keywords")
  && sequence_or_absent (optget content "social_posts")
  && sequence_or_absent (optget content "faqs").

Definition trashed (clicks : list click) : list value :=
  flat_map (fun c => match c with Trash contentId => [contentId] | _ => [] end) clicks.

End Page.
End DashboardRender.

(* ================================================================== *)
(** ** pages/EnhancedContentDetails.jsx: the actions of the page *)

Module DetailsActions.
Import EnhancedContentDetails.

Inductive action : Type :=
| SetRefreshing (b : bool)
| Post (endpoint : string)
| ToastSuccess (message : string)
| Fetching (e : effect)                       (* an effect of fetchContent *)
| ConsoleError (label : string) (error : caught)
| ToastError (message : string)
| ClipboardWrite (text : value).

Section Page.
Variable API : string.
Variable id : value.
Variable origin : string.          (* window.location.origin *)

(** [handleRefreshContent(contentId)].  [posted] is how the awaited POST
    ends; [events] are the answers to the two requests of the [fetchContent]
    it then awaits.  [fetchContent] catches what it raises, so the [catch]
    clause here only sees the POST; the handler reaches its [finally] once
    [fetchContent] has returned. *)
Definition handleRefreshContent (p : page) (contentId : value) (posted : settled)
           (events : list event) : page * list action :=
  let request := Post (API ++ "/content/" ++ ToString contentId ++ "/refresh") in
  match posted with
  | Rejected error =>
      (p, [SetRefreshing true; request;
           ConsoleError "Error refreshing content:" (Reason error);
           ToastError "Failed to refresh content";
           SetRefreshing false])
  | Resolved _ =>
      let '(p1, out1) := fetchContent_begin API id p in
      let '(p2, out2) := run p1 events in
      (p2, ([SetRefreshing true; request; ToastSuccess "Content refreshed successfully!"]
            ++ map Fetching (out1 ++ out2)
            ++ (if awaiting p2 then [] else [SetRefreshing false]))%list)
  end.

(** The Refresh button carries [disabled={refreshing}]. *)
Fixpoint refreshing_after (actions : list action) (before : bool) : bool :=
  match actions with
  | [] => before
  | SetRefreshing b :: rest => refreshing_after rest b
  | _ :: rest => refreshing_after rest before
  end.

(** [copyToClipboard(text, label = 'Content')]. *)
Definition copyToClipboard (text : value) (label : option string) : list action :=
  [ClipboardWrite text;
   ToastSuccess (match label with Some l => l | None => "Content" end
                 ++ " copied to clipboard!")].

(** [copyShareLink()] of the page; the button exists once [content] is
    there. *)
Definition copyShareLink (content : value) : result (list action) :=
  share_id <- get content "share_id" ;;
  if truthy share_id then
    Ok (copyToClipboard (VStr (origin ++ "/share/" ++ ToString share_id)) (Some "Share link"))
  else Ok [].

Definition is_get (a : action) : bool :=
  match a with Fetching (Get _) => true | _ => false end.

Definition toasts (actions : list action) : list action :=
  filter (fun a => match a with
                   | ToastSuccess _ | ToastError _ | Fetching (EnhancedContentDetails.ToastError _) => true
                   | _ => false
                   end) actions.

End Page.
End DetailsActions.

(* ================================================================== *)
(** ** pages/EnhancedContentDetails.jsx: the detail view

    The header, the quick stats, the Overview and Traffic tabs and the
    content preview of the Content tab.  React calls the section renderers
    while it renders the page, and there is no error boundary: what a
    renderer raises, the page raises. *)

Module DetailsView.

Record header : Type := {
  heading : value;                 (* {content.optimized_title || content.title} *)
  summary : value;                 (* {content.optimized_description} *)
  source_link : slot value         (* href={content.url} *)
}.

Record quick_stats : Type := {
  seo_stat : value;                (* {content.performance_score}% *)
  quality_stat : value;
  readability_stat : value;
  keywords_stat : value;           (* {content.keywords?.length || 0} *)
  queries_stat : value             (* {queries.length} *)
}.

Record overview : Type := {
  seo_card : slot (option SEOScoreCard.view);
  freshness_card : slot (option ContentFreshness.view);
  meta_preview : slot (option MetaPreview.view);
  keyword_badges : slot (list value);
  lsi_badges : slot (list value)
}.

Record traffic : Type := {
  insights : option TrafficInsights.view;
  topic_clusters : slot (option TopicClusters.view)
}.

Record preview : Type := {
  excerpt : string;                (* {content.content.substring(0, 1000)} *)
  ellipsis : value;                (* {content.content.length > 1000 && '...'} *)
  word_count : value               (* {content.content_optimization?.word_count || 0} *)
}.

Section Page.
Context {host : Host}.

Definition render_header (content : value) : header :=
  {| heading := or_else (optget content "optimized_title") (optget content "title");
     summary := optget content "optimized_description";
     source_link := if truthy (optget content "url")
                    then Shown (optget content "url")
                    else Hidden (optget content "url") |}.

Definition render_quick_stats (content queries : value) : result quick_stats :=
  quality <- opt_toFixed (optget (optget content "quality_score") "overall_quality") 0 ;;
  readability <-
    opt_toFixed (optget (optget content "content_optimization") "readability_score") 0 ;;
  n <- get queries "length" ;;
  Ok {| seo_stat := optget content "performance_score";
        quality_stat := or_else quality (VNum 0);
        readability_stat := or_else readability (VNum 0);
        keywords_stat := or_else (optget (optget content "keywords") "length") (VNum 0);
        queries_stat := n |}.

(** [{slice && (<Renderer ... />)}]. *)
Definition when_present {B} (slice : value) (renderer : value -> result B)
  : result (slot B) :=
  if truthy slice then b <- renderer slice ;; Ok (Shown b) else Ok (Hidden slice).

Definition badges (xs : value) : result (slot (list value)) :=
  guarded_map xs (fun ys => array_map ys (fun kw => Ok kw)).

(** The refresh handler of the page is always handed to ContentFreshness. *)
Definition render_overview (content : value) : result overview :=
  seo <- when_present (optget content "seo_score") SEOScoreCard.SEOScoreCard ;;
  fresh <- when_present (optget content "freshness")
             (fun f => Ok (ContentFreshness.ContentFreshness f (optget content "id") true)) ;;
  meta <- when_present (optget content "meta_preview")
            (fun m => Ok (MetaPreview.MetaPreview m (optget content "optimized_title")
                            (optget content "optimized_description") (optget content "url"))) ;;
  kws <- badges (optget content "keywords") ;;
  lsi <- badges (optget content "lsi_keywords") ;;
  Ok {| seo_card := seo; freshness_card := fresh; meta_preview := meta;
        keyword_badges := kws; lsi_badges := lsi |}.

Definition render_traffic (content : value) : result traffic :=
  ti <- TrafficInsights.TrafficInsights (optget content "traffic_prediction")
          (optget content "keyword_gap") (optget content "serp_optimization")
          (optget content "freshness") ;;
  tc <- when_present (optget content "topic_clusters") TopicClusters.TopicClusters ;;
  Ok {| insights := ti; topic_clusters := tc |}.

Definition render_preview (content : value) : result preview :=
  text <- get content "content" ;;
  s <- substring_from_start text 1000 ;;
  len <- get text "length" ;;
  Ok {| excerpt := s;
        ellipsis := if gt len 1000 then VStr "..." else VBool false;
        word_count := or_else (optget (optget content "content_optimization") "word_count")
                              (VNum 0) |}.

End Page.
End DetailsView.

(* ================================================================== *)
(** ** App.js: the routes *)

Module App.

(** The four [<Route>] elements, by the URL they match. *)
Inductive location : Type :=
| Root                             (* "/" *)
| Add                              (* "/add" *)
| Content (segment : string)       (* "/content/:id" *)
| Share (segment : string).        (* "/share/:shareId" *)

Inductive element : Type :=
| DashboardPage
| AddContentPage
| EnhancedContentDetailsPage.

Definition route (l : location) : element :=
  match l with
  | Root => DashboardPage
  | Add => AddContentPage
  | Content _ | Share _ => EnhancedContentDetailsPage
  end.

(** What useParams() returns: the segments of the URL under the names the
    pattern of the route gives them. *)
Definition useParams (l : location) : value :=
  match l with
  | Root | Add => VObj []
  | Content segment => VObj [("id", VStr segment)]
  | Share segment => VObj [("shareId", VStr segment)]
  end.

(** [const { id } = useParams()], as EnhancedContentDetails reads it. *)
Definition id_of (l : location) : value := optget (useParams l) "id".

End App.

(* ================================================================== *)
(** ** pages/ContentDetails.jsx: the two lists of queries *)

Module ContentDetails.

(** [q => q.query_type === type]. *)
Definition has_type (type : string) (q : value) : result bool :=
  t <- get q "query_type" ;; Ok (strict_eq t type).

Fixpoint filterM (f : value -> result bool) (l : list value) : result (list value) :=
  match l with
  | [] => Ok []
  | x :: r =>
      keep <- f x ;;
      rest <- filterM f r ;;
      Ok (if keep then x :: rest else rest)
  end.

(** [queries.filter(q => q.query_type === type)]: only an array has
    [filter]. *)
Definition queries_of_type (queries : value) (type : string) : result (list value) :=
  match queries with
  | VArr items => filterM (has_type type) items
  | _ => Throw TypeError
  end.

Definition standardQueries (queries : value) : result (list value) :=
  queries_of_type queries "standard".

Definition voiceQueries (queries : value) : result (list value) :=
  queries_of_type queries "voice".

(** The queries of neither type. *)
Definition untyped (items : list value) : list value :=
  filter (fun q => negb (strict_eq (optget q "query_type") "standard")
                   && negb (strict_eq (optget q "query_type") "voice")) items.

End ContentDetails.

(* ================================================================== *)
(** * Properties of the section renderers *)

Section Renderers.
Context {host : Host}.

Lemma nullish_cases (v : value) :
  nullish v = true -> v = VUndefined \/ v = VNull.
Proof. destruct v; simpl; intros E; try discriminate; auto. Qed.

Lemma nullish_not_truthy (v : value) : nullish v = true -> truthy v = false.
Proof. intros E; destruct (nullish_cases v E); subst; reflexivity. Qed.

Lemma or_else_absent (v d : value) : nullish v = true -> or_else v d = d.
Proof. intros E; unfold or_else; now rewrite nullish_not_truthy. Qed.

Lemma optget_absent (v : value) (k : string) :
  nullish v = true -> optget v k = VUndefined.
Proof. intros E; destruct (nullish_cases v E); subst; reflexivity. Qed.

Lemma mapM_Ok (l : list value) : mapM (fun x => Ok x) l = Ok l.
Proof.
  induction l as [|x r IH]; simpl; [reflexivity|].
  now rewrite IH.
Qed.

Lemma ge_number (n k : Z) : ge (VNum n) k = (k <=? n).
Proof. reflexivity. Qed.

(** A sequence, or nothing, in the place of a mapped list never raises. *)
Lemma guarded_map_sequence (xs : value) :
  sequence_or_absent xs = true ->
  exists r, guarded_map xs (fun ys => array_map ys (fun y => Ok y)) = Ok r.
Proof.
  destruct xs; simpl; intros E; try discriminate; unfold guarded_map; simpl;
    try (eexists; reflexivity).
  destruct (gt _ 0); [|eexists; reflexivity].
  rewrite mapM_Ok; simpl; eexists; reflexivity.
Qed.

Lemma guarded_slice_sequence (xs : value) (n : nat) :
  sequence_or_absent xs = true ->
  exists r, guarded_map xs (fun ys => slice_map ys n (fun y => Ok y)) = Ok r.
Proof.
  destruct xs; simpl; intros E; try discriminate; unfold guarded_map; simpl;
    try (eexists; reflexivity).
  destruct (gt _ 0); [|eexists; reflexivity].
  rewrite mapM_Ok; simpl; eexists; reflexivity.
Qed.

(** C1. Each of the five section renderers (SEOScoreCard,
    ContentFreshness, TrafficInsights, MetaPreview, TopicClusters), given a
    root slice that is null or undefined, returns null: no element, and no
    exception, whatever its other props are. *)
Theorem absent_slice_renders_nothing (slice : value) :
  nullish slice = true ->
  forall (contentId keywordGap serp freshness title description url : value)
         (onRefresh : bool),
    SEOScoreCard.SEOScoreCard slice = Ok None
    /\ ContentFreshness.ContentFreshness slice contentId onRefresh = None
    /\ TrafficInsights.TrafficInsights slice keywordGap serp freshness = Ok None
    /\ MetaPreview.MetaPreview slice title description url = None
    /\ TopicClusters.TopicClusters slice = Ok None.
Proof.
  intros E; destruct (nullish_cases slice E); subst; intros; repeat split.
Qed.

(** C10. TopicClusters returns null not only for a null or undefined
    slice, but also for every slice that is present while its pillar_topic
    is absent (undefined or null) or the empty string. *)
Theorem topic_clusters_needs_pillar (topicClusters : value) :
  nullish topicClusters = true
  \/ nullish (optget topicClusters "pillar_topic") = true
  \/ optget topicClusters "pillar_topic" = VStr "" ->
  TopicClusters.TopicClusters topicClusters = Ok None.
Proof.
  unfold TopicClusters.TopicClusters.
  intros [E | [E | E]].
  - now rewrite (nullish_not_truthy _ E).
  - rewrite (nullish_not_truthy _ E); simpl. now rewrite orb_true_r.
  - rewrite E; simpl. now rewrite orb_true_r.
Qed.

End Renderers.

(** C1 at [null], with sample props. *)
Lemma absent_slice_renders_nothing_witness :
  nullish VNull = true
  /\ @SEOScoreCard.SEOScoreCard example_host VNull = Ok None
  /\ @ContentFreshness.ContentFreshness example_host VNull (VStr "c1") true = None
  /\ @TrafficInsights.TrafficInsights example_host VNull VNull VNull VNull = Ok None
  /\ MetaPreview.MetaPreview VNull VNull VNull VNull = None
  /\ @TopicClusters.TopicClusters example_host VNull = Ok None.
Proof.
  split; [reflexivity|].
  exact (@absent_slice_renders_nothing example_host VNull eq_refl
           (VStr "c1") VNull VNull VNull VNull VNull VNull true).
Defined.

(** The guard of C10 met by a slice that has cluster topics and an empty
    pillar topic. *)
Lemma topic_clusters_needs_pillar_witness :
  @TopicClusters.TopicClusters example_host
    (VObj [("pillar_topic", VStr ""); ("cluster_topics", VArr [VObj [("topic", VStr "t")]])])
  = Ok None.
Proof.
  apply (@topic_clusters_needs_pillar example_host).
  right; right; reflexivity.
Defined.

Section Bands.
Context {host : Host}.

Lemma strict_eq_true (v : value) (lit : string) :
  strict_eq v lit = true <-> v = VStr lit.
Proof.
  destruct v; simpl; split; intros E; try discriminate; try congruence.
  - apply String.eqb_eq in E; now subst.
  - injection E as ->. apply String.eqb_refl.
Qed.

Lemma strict_eq_false (v : value) (lit : string) :
  v <> VStr lit -> strict_eq v lit = false.
Proof.
  intros N. destruct (strict_eq v lit) eqn:E; [|reflexivity].
  apply strict_eq_true in E; contradiction.
Qed.

Ltac band :=
  repeat match goal with
         | |- context [?k <=? ?n] =>
             let E := fresh "E" in
             destruct (Z.leb_spec k n) as [E | E]; try lia
         end;
  try reflexivity.

(** The overall score of SEOScoreCard, as text colour and as bar colour. *)
Lemma seo_score_bands (n : Z) :
  (85 <= n -> SEOScoreCard.getScoreColor (VNum n) = "text-green-600")
  /\ (70 <= n < 85 -> SEOScoreCard.getScoreColor (VNum n) = "text-blue-600")
  /\ (50 <= n < 70 -> SEOScoreCard.getScoreColor (VNum n) = "text-orange-600")
  /\ (n < 50 -> SEOScoreCard.getScoreColor (VNum n) = "text-red-600").
Proof.
  unfold SEOScoreCard.getScoreColor; rewrite !ge_number.
  repeat split; intros; band.
Qed.

Lemma freshness_score_bands (n : Z) :
  (90 <= n -> ContentFreshness.getScoreColor (VNum n) = "from-green-500 to-green-600")
  /\ (75 <= n < 90 -> ContentFreshness.getScoreColor (VNum n) = "from-blue-500 to-blue-600")
  /\ (60 <= n < 75 ->
      ContentFreshness.getScoreColor (VNum n) = "from-orange-500 to-orange-600")
  /\ (n < 60 -> ContentFreshness.getScoreColor (VNum n) = "from-red-500 to-red-600").
Proof.
  unfold ContentFreshness.getScoreColor; rewrite !ge_number.
  repeat split; intros; band.
Qed.

Lemma tier_bands :
  TrafficInsights.getTierColor (VStr "High") = "text-green-600 bg-green-100"
  /\ TrafficInsights.getTierColor (VStr "Medium") = "text-orange-600 bg-orange-100"
  /\ (forall tier, tier <> VStr "High" -> tier <> VStr "Medium" ->
      TrafficInsights.getTierColor tier = "text-blue-600 bg-blue-100").
Proof.
  repeat split. intros tier NH NM. unfold TrafficInsights.getTierColor.
  now rewrite (strict_eq_false _ _ NH), (strict_eq_false _ _ NM).
Qed.

(** C3. The score-band mappings are functions of their input that follow
    the tables of the specification: the overall score of SEOScoreCard is
    green from 85, blue from 70, orange from 50 and red below; the score
    gradient of ContentFreshness is green from 90, blue from 75, orange
    from 60 and red below; the tier of TrafficInsights is green for High,
    orange for Medium and blue for every other value; and each of the
    boundary scores 90, 85, 75, 70, 60 and 50 lies in the higher of its two
    bands. *)
Theorem score_bands_follow_tables :
  (forall n : Z,
      (85 <= n -> SEOScoreCard.getScoreColor (VNum n) = "text-green-600")
      /\ (70 <= n < 85 -> SEOScoreCard.getScoreColor (VNum n) = "text-blue-600")
      /\ (50 <= n < 70 -> SEOScoreCard.getScoreColor (VNum n) = "text-orange-600")
      /\ (n < 50 -> SEOScoreCard.getScoreColor (VNum n) = "text-red-600"))
  /\ (forall n : Z,
      (90 <= n ->
       ContentFreshness.getScoreColor (VNum n) = "from-green-500 to-green-600")
      /\ (75 <= n < 90 ->
          ContentFreshness.getScoreColor (VNum n) = "from-blue-500 to-blue-600")
      /\ (60 <= n < 75 ->
          ContentFreshness.getScoreColor (VNum n) = "from-orange-500 to-orange-600")
      /\ (n < 60 ->
          ContentFreshness.getScoreColor (VNum n) = "from-red-500 to-red-600"))
  /\ (TrafficInsights.getTierColor (VStr "High") = "text-green-600 bg-green-100"
      /\ TrafficInsights.getTierColor (VStr "Medium") = "text-orange-600 bg-orange-100"
      /\ (forall tier, tier <> VStr "High" -> tier <> VStr "Medium" ->
          TrafficInsights.getTierColor tier = "text-blue-600 bg-blue-100"))
  /\ (SEOScoreCard.getScoreColor (VNum 85) = "text-green-600"
      /\ SEOScoreCard.getScoreColor (VNum 84) = "text-blue-600"
      /\ SEOScoreCard.getScoreColor (VNum 70) = "text-blue-600"
      /\ SEOScoreCard.getScoreColor (VNum 69) = "text-orange-600"
      /\ SEOScoreCard.getScoreColor (VNum 50) = "text-orange-600"
      /\ SEOScoreCard.getScoreColor (VNum 49) = "text-red-600")
  /\ (ContentFreshness.getScoreColor (VNum 90) = "from-green-500 to-green-600"
      /\ ContentFreshness.getScoreColor (VNum 89) = "from-blue-500 to-blue-600"
      /\ ContentFreshness.getScoreColor (VNum 75) = "from-blue-500 to-blue-600"
      /\ ContentFreshness.getScoreColor (VNum 74) = "from-orange-500 to-orange-600"
      /\ ContentFreshness.getScoreColor (VNum 60) = "from-orange-500 to-orange-600"
      /\ ContentFreshness.getScoreColor (VNum 59) = "from-red-500 to-red-600").
Proof.
  split; [exact seo_score_bands|].
  split; [exact freshness_score_bands|].
  split; [exact tier_bands|].
  split; repeat split.
Qed.

End Bands.

(** C3 used at the boundary 85, at a score inside the blue band, and at a
    tier outside the vocabulary. *)
Lemma score_bands_follow_tables_witness :
  @SEOScoreCard.getScoreColor example_host (VNum 85) = "text-green-600"
  /\ @ContentFreshness.getScoreColor example_host (VNum 80) = "from-blue-500 to-blue-600"
  /\ TrafficInsights.getTierColor (VStr "Low") = "text-blue-600 bg-blue-100".
Proof.
  pose proof (@score_bands_follow_tables example_host) as [S [F [[_ [_ T]] _]]].
  split; [apply (proj1 (S 85)); lia|].
  split; [apply (proj1 (proj2 (F 80))); lia|].
  apply T; discriminate.
Defined.

Section Grade.
Context {host : Host}.

Lemma getGradeColor_string (s : string) :
  exists c, SEOScoreCard.getGradeColor (VStr s) = Ok c.
Proof.
  unfold SEOScoreCard.getGradeColor; simpl.
  destruct (String.prefix "A" s); [eexists; reflexivity|].
  destruct (String.prefix "B" s); [eexists; reflexivity|].
  destruct (String.prefix "C" s); eexists; reflexivity.
Qed.

Lemma getGradeColor_other (grade : value) :
  (forall s, grade <> VStr s) -> SEOScoreCard.getGradeColor grade = Throw TypeError.
Proof.
  intros N; destruct grade; try reflexivity. now elim (N s).
Qed.

(** C9. SEOScoreCard depends on the grade of a present seo_score being a
    string.  After the top-level check it calls grade.startsWith with no
    guard: for every present seo_score whose grade is null or undefined
    (and for every grade that is not a string) rendering raises a TypeError
    instead of rendering nothing; the call raises for no string grade, and
    a slice with a string grade and a sequence of recommendations, as the
    data model's `presence implies structural completeness' gives it, is
    rendered. *)
Theorem seo_score_card_needs_string_grade (seoScore : value) :
  truthy seoScore = true ->
  (nullish (optget seoScore "grade") = true ->
   SEOScoreCard.SEOScoreCard seoScore = Throw TypeError)
  /\ ((forall s, optget seoScore "grade" <> VStr s) ->
      SEOScoreCard.SEOScoreCard seoScore = Throw TypeError)
  /\ (forall s, optget seoScore "grade" = VStr s ->
      (exists c, SEOScoreCard.getGradeColor (optget seoScore "grade") = Ok c)
      /\ (sequence_or_absent (optget seoScore "recommendations") = true ->
          exists v, SEOScoreCard.SEOScoreCard seoScore = Ok (Some v)
                    /\ SEOScoreCard.grade_child v = VStr s)).
Proof.
  intros T.
  assert (other : (forall s, optget seoScore "grade" <> VStr s) ->
                  SEOScoreCard.SEOScoreCard seoScore = Throw TypeError).
  { intros N. unfold SEOScoreCard.SEOScoreCard. rewrite T; simpl.
    now rewrite (getGradeColor_other _ N). }
  split; [|split; [exact other|]].
  - intros E. apply other. intros s Es. rewrite Es in E. discriminate.
  - intros s Es. split.
    + rewrite Es. apply getGradeColor_string.
    + intros Q. unfold SEOScoreCard.SEOScoreCard. rewrite T; simpl.
      rewrite Es. destruct (getGradeColor_string s) as [c ->]; simpl.
      destruct (guarded_map_sequence _ Q) as [r ->]; simpl.
      eexists; split; reflexivity.
Qed.

End Grade.

(** C9 at a present slice that has a score and no grade. *)
Lemma seo_score_card_needs_string_grade_witness :
  truthy (VObj [("overall_score", VNum 72)]) = true
  /\ nullish (optget (VObj [("overall_score", VNum 72)]) "grade") = true
  /\ @SEOScoreCard.SEOScoreCard example_host (VObj [("overall_score", VNum 72)])
     = Throw TypeError.
Proof.
  split; [reflexivity|]. split; [reflexivity|].
  apply (proj1 (@seo_score_card_needs_string_grade example_host
                  (VObj [("overall_score", VNum 72)]) eq_refl)).
  reflexivity.
Defined.

Section Fallbacks.
Context {host : Host}.

Lemma zero_shows : shows_zero (VNum 0).
Proof. reflexivity. Qed.

Lemma absent_toFixed (v : value) (d : nat) :
  nullish v = true -> opt_toFixed v d = Ok VUndefined.
Proof. intros E; destruct (nullish_cases v E); subst; reflexivity. Qed.

Lemma absent_toLocaleString (v : value) :
  nullish v = true -> opt_toLocaleString v = VUndefined.
Proof. intros E; unfold opt_toLocaleString; now rewrite E. Qed.

Lemma number_toFixed (v : value) (d : nat) :
  number_or_absent v = true -> exists r, opt_toFixed v d = Ok r.
Proof. destruct v; simpl; intros E; try discriminate; eexists; reflexivity. Qed.

(** Whenever the coverage panel is rendered, an absent leaf shows as 0. *)
Lemma render_coverage_fallback (keywordGap : value) (panel : TrafficInsights.coverage_panel) :
  TrafficInsights.render_coverage keywordGap = Ok (Shown panel) ->
  (nullish (optget keywordGap "coverage_score") = true ->
   TrafficInsights.coverage_text panel = VNum 0
   /\ TrafficInsights.coverage_width panel = "0%")
  /\ (nullish (optget keywordGap "covered") = true ->
      TrafficInsights.covered panel = VNum 0)
  /\ (nullish (optget keywordGap "missing") = true ->
      TrafficInsights.missing panel = VNum 0)
  /\ (nullish (optget keywordGap "total_expected") = true ->
      TrafficInsights.total_expected panel = VNum 0).
Proof.
  unfold TrafficInsights.render_coverage.
  destruct (truthy keywordGap); simpl; [|discriminate].
  destruct (opt_toFixed _ 0) as [fixed|] eqn:F; simpl; [|discriminate].
  destruct (guarded_map _ _) as [chips|]; simpl; [|discriminate].
  intros [= <-]; simpl. split; [|split; [|split]]; intros E.
  - rewrite (absent_toFixed _ _ E) in F. injection F as <-.
    rewrite (or_else_absent _ _ E). split; reflexivity.
  - now apply or_else_absent.
  - now apply or_else_absent.
  - now apply or_else_absent.
Qed.

Lemma render_list_fallback (serp : value) (r : TrafficInsights.list_row) :
  TrafficInsights.render_list serp = Shown r ->
  nullish (optget (optget serp "list_snippet") "count") = true ->
  TrafficInsights.list_count r = VNum 0.
Proof.
  unfold TrafficInsights.render_list.
  destruct (truthy (optget serp "list_snippet")); simpl; [|discriminate].
  intros [= <-] E; simpl. now apply or_else_absent.
Qed.

(** Whenever TrafficInsights returns an element, each of its numeric
    leaves that is absent shows as 0. *)
Lemma traffic_insights_fallback (tp kg serp fr : value) (v : TrafficInsights.view) :
  TrafficInsights.TrafficInsights tp kg serp fr = Ok (Some v) ->
  forall leaf shown,
    In (leaf, shown) (TrafficInsights.numeric_leaves tp kg serp v) ->
    nullish leaf = true -> shown = VNum 0.
Proof.
  unfold TrafficInsights.TrafficInsights.
  destruct (truthy tp); simpl; [|discriminate].
  destruct (opt_toFixed _ 1) as [quality|] eqn:Q; simpl; [|discriminate].
  destruct (opt_toFixed _ 0) as [readability|] eqn:R; simpl; [|discriminate].
  destruct (TrafficInsights.render_coverage kg) as [gap|] eqn:G; simpl; [|discriminate].
  destruct (guarded_map _ _) as [recs|]; simpl; [|discriminate].
  intros [= <-] leaf shown. unfold TrafficInsights.numeric_leaves; simpl.
  intros I E.
  repeat (destruct I as [I | I];
          [injection I as <- <-;
           try (rewrite (absent_toLocaleString _ E); reflexivity);
           try (now apply or_else_absent) | ]).
  - rewrite (absent_toFixed _ _ E) in Q. injection Q as <-. reflexivity.
  - rewrite (absent_toFixed _ _ E) in R. injection R as <-. reflexivity.
  - apply in_app_or in I. destruct I as [I | I].
    + destruct gap as [panel | ?]; [|contradiction].
      destruct (render_coverage_fallback _ _ G) as [C [C1 [C2 C3]]].
      simpl in I.
      repeat (destruct I as [I | I]; [injection I as <- <-; auto | ]);
        [apply (C E) | contradiction].
    + unfold TrafficInsights.render_serp in I.
      destruct (truthy serp); simpl in I; [|contradiction].
      destruct (TrafficInsights.render_list serp) as [r|] eqn:L; [|contradiction].
      destruct I as [I | []]. injection I as <- <-.
      now apply (render_list_fallback serp).
Qed.

(** Well-shaped props are rendered. *)
Lemma traffic_insights_renders (tp kg serp fr : value) :
  TrafficInsights.well_shaped tp kg = true ->
  exists v, TrafficInsights.TrafficInsights tp kg serp fr = Ok (Some v).
Proof.
  unfold TrafficInsights.well_shaped, TrafficInsights.TrafficInsights.
  rewrite !andb_true_iff. intros [[[[T Q] R] S] K].
  rewrite T; simpl.
  destruct (number_toFixed _ 1%nat Q) as [q ->]; simpl.
  destruct (number_toFixed _ 0%nat R) as [r ->]; simpl.
  assert (exists gap, TrafficInsights.render_coverage kg = Ok gap) as [gap ->].
  { unfold TrafficInsights.render_coverage.
    destruct (truthy kg); simpl in *; [|eexists; reflexivity].
    apply andb_true_iff in K. destruct K as [C M].
    destruct (number_toFixed _ 0%nat C) as [c ->]; simpl.
    destruct (guarded_slice_sequence _ 8 M) as [chips ->]; simpl.
    eexists; reflexivity. }
  simpl. destruct (guarded_map_sequence _ S) as [recs ->]; simpl.
  eexists; reflexivity.
Qed.

(** Whenever SEOScoreCard returns an element, a category score that is
    absent from the breakdown shows as 0. *)
Lemma seo_breakdown_fallback (seoScore : value) (v : SEOScoreCard.view) :
  SEOScoreCard.SEOScoreCard seoScore = Ok (Some v) ->
  forall leaf shown,
    In (leaf, shown) (SEOScoreCard.numeric_leaves seoScore v) ->
    nullish leaf = true -> shown = VNum 0.
Proof.
  unfold SEOScoreCard.SEOScoreCard.
  destruct (truthy seoScore); simpl; [|discriminate].
  destruct (SEOScoreCard.getGradeColor _) as [gc|]; simpl; [|discriminate].
  destruct (guarded_map _ _) as [recs|]; simpl; [|discriminate].
  intros [= <-] leaf shown. unfold SEOScoreCard.numeric_leaves; simpl.
  intros I E.
  repeat (destruct I as [I | I];
          [injection I as <- <-; now apply or_else_absent | ]).
  contradiction.
Qed.

End Fallbacks.

Section Leaves.
Context {host : Host}.

Lemma absent_shows_nothing (v : value) : nullish v = true -> reactText v = Some "".
Proof. intros E; destruct (nullish_cases v E); subst; reflexivity. Qed.

Lemma seo_score_card_renders (seoScore : value) (s : string) :
  truthy seoScore = true ->
  optget seoScore "grade" = VStr s ->
  sequence_or_absent (optget seoScore "recommendations") = true ->
  exists v, SEOScoreCard.SEOScoreCard seoScore = Ok (Some v)
            /\ SEOScoreCard.grade_child v = VStr s
            /\ SEOScoreCard.score_child v = optget seoScore "overall_score".
Proof.
  intros T G Q. unfold SEOScoreCard.SEOScoreCard. rewrite T; simpl.
  rewrite G. destruct (getGradeColor_string s) as [c ->]; simpl.
  destruct (guarded_map_sequence _ Q) as [r ->]; simpl.
  eexists; repeat split; reflexivity.
Qed.

(** C2, as amended.  The renderers that give their optional numeric
    leaves a fallback show 0 (or 0%) for an absent leaf: in TrafficInsights
    the three traffic estimates, the four factors, the coverage score (text
    and bar width), the covered, missing and expected counts and the count
    of the list snippet; in SEOScoreCard the five scores of the breakdown.
    MetaPreview, ContentFreshness and the overall score of SEOScoreCard
    have no fallback: the character counts and the scores are handed to
    React as they were read, so that an absent one shows no text. *)
Theorem absent_numeric_leaf_display :
  (forall tp kg serp fr : value,
      TrafficInsights.well_shaped tp kg = true ->
      exists v,
        TrafficInsights.TrafficInsights tp kg serp fr = Ok (Some v)
        /\ (forall leaf shown,
               In (leaf, shown) (TrafficInsights.numeric_leaves tp kg serp v) ->
               nullish leaf = true -> shown = VNum 0 /\ shows_zero shown)
        /\ (forall panel,
               TrafficInsights.coverage v = Shown panel ->
               nullish (optget kg "coverage_score") = true ->
               TrafficInsights.coverage_width panel = "0%"))
  /\ (forall (seoScore : value) (grade : string),
         truthy seoScore = true ->
         optget seoScore "grade" = VStr grade ->
         sequence_or_absent (optget seoScore "recommendations") = true ->
         exists v,
           SEOScoreCard.SEOScoreCard seoScore = Ok (Some v)
           /\ (forall leaf shown,
                  In (leaf, shown) (SEOScoreCard.numeric_leaves seoScore v) ->
                  nullish leaf = true -> shown = VNum 0 /\ shows_zero shown)
           /\ SEOScoreCard.score_child v = optget seoScore "overall_score")
  /\ (forall metaPreview title description url : value,
         truthy metaPreview = true ->
         exists v,
           MetaPreview.MetaPreview metaPreview title description url = Some v
           /\ MetaPreview.title_length v
              = optget (optget metaPreview "character_counts") "title_length"
           /\ MetaPreview.description_length v
              = optget (optget metaPreview "character_counts") "description_length")
  /\ (forall (freshness contentId : value) (onRefresh : bool),
         truthy freshness = true ->
         exists v,
           ContentFreshness.ContentFreshness freshness contentId onRefresh = Some v
           /\ ContentFreshness.score_child v = optget freshness "freshness_score")
  /\ (forall leaf : value, nullish leaf = true -> reactText leaf = Some "").
Proof.
  split; [|split; [|split; [|split]]].
  - intros tp kg serp fr W.
    destruct (traffic_insights_renders tp kg serp fr W) as [v R].
    exists v. split; [exact R|]. split.
    + intros leaf shown I E.
      rewrite (traffic_insights_fallback _ _ _ _ _ R leaf shown I E).
      split; [reflexivity | exact zero_shows].
    + intros panel C E.
      unfold TrafficInsights.TrafficInsights in R.
      destruct (truthy tp); simpl in R; [|discriminate].
      destruct (opt_toFixed _ 1); simpl in R; [|discriminate].
      destruct (opt_toFixed _ 0); simpl in R; [|discriminate].
      destruct (TrafficInsights.render_coverage kg) as [gap|] eqn:G;
        simpl in R; [|discriminate].
      destruct (guarded_map _ _); simpl in R; [|discriminate].
      injection R as <-. simpl in C. subst gap.
      now apply (render_coverage_fallback kg panel G).
  - intros seoScore grade T G Q.
    destruct (seo_score_card_renders seoScore grade T G Q) as [v [R [_ S]]].
    exists v. split; [exact R|]. split; [|exact S].
    intros leaf shown I E.
    rewrite (seo_breakdown_fallback _ _ R leaf shown I E).
    split; [reflexivity | exact zero_shows].
  - intros mp t d u T. unfold MetaPreview.MetaPreview. rewrite T; simpl.
    eexists; repeat split; reflexivity.
  - intros fr cid r T. unfold ContentFreshness.ContentFreshness. rewrite T; simpl.
    eexists; split; reflexivity.
  - exact absent_shows_nothing.
Qed.

End Leaves.

(** C2 at a prediction that has a tier and no estimate: the low estimate
    shows as 0. *)
Lemma absent_numeric_leaf_display_witness :
  TrafficInsights.well_shaped (VObj [("traffic_tier", VStr "Medium")]) VNull = true
  /\ exists v,
      @TrafficInsights.TrafficInsights example_host
        (VObj [("traffic_tier", VStr "Medium")]) VNull VNull VNull = Ok (Some v)
      /\ TrafficInsights.low v = VNum 0.
Proof.
  split; [reflexivity|].
  destruct (proj1 (@absent_numeric_leaf_display example_host)
              (VObj [("traffic_tier", VStr "Medium")]) VNull VNull VNull eq_refl)
    as [v [R [L _]]].
  exists v. split; [exact R|].
  apply (L VUndefined (TrafficInsights.low v)); [|reflexivity].
  unfold TrafficInsights.numeric_leaves. left. reflexivity.
Defined.

(** C2 as stated fails on ContentFreshness: with the freshness score (and
    the age) absent from a present slice, the score shows no text instead of
    0, the bar width is the text undefined%, and the age line reads
    `undefined day old'. *)
Lemma absent_leaf_not_zero_counterexample :
  nullish (optget freshness_without_numbers "freshness_score") = true
  /\ nullish (optget freshness_without_numbers "days_old") = true
  /\ exists v,
      @ContentFreshness.ContentFreshness example_host
        freshness_without_numbers (VStr "c1") true = Some v
      /\ ~ shows_zero (ContentFreshness.score_child v)
      /\ reactText (ContentFreshness.score_child v) = Some ""
      /\ ContentFreshness.bar_width v = "undefined%"
      /\ ContentFreshness.age_text v = "undefined day old".
Proof.
  split; [reflexivity|]. split; [reflexivity|].
  eexists. split; [reflexivity|]. simpl.
  split; [unfold shows_zero; simpl; discriminate|].
  repeat split.
Qed.

(* ================================================================== *)
(** * Properties of the pages *)

Section AddContentPage.
Variable API : string.

Import AddContent.

Lemma truthy_string (x : string) : truthy (VStr x) = negb (x =? "")%string.
Proof. reflexivity. Qed.

(** In either mode the guards of [handleSubmit] stop exactly the inputs
    the validation rule refuses. *)
Lemma handleSubmit_guards (s : state) (outcome : settled) :
  inputType s = "url" \/ inputType s = "manual" ->
  (validation_passes s = false ->
   exists message, handleSubmit API s outcome = [PreventDefault; ToastError message])
  /\ (validation_passes s = true ->
      exists rest,
        handleSubmit API s outcome
        = PreventDefault :: SetLoading true :: Post (API ++ "/content") (payload_of s) :: rest
        /\ posts rest = []
        /\ rest = match outcome with
                  | Resolved response =>
                      [ToastSuccess
                         "Content added successfully! Generating traffic strategies...";
                       SetTimeout (navigate_target response) 1500;
                       SetLoading false]
                  | Rejected error => on_failure error
                  end).
Proof.
  intros M. unfold validation_passes, handleSubmit. rewrite !truthy_string.
  destruct M as [M | M]; rewrite M; simpl.
  - destruct (url s =? "")%string; simpl; split; intros V; try discriminate.
    + eexists; reflexivity.
    + eexists; split; [reflexivity|]. split; [|reflexivity].
      destruct outcome as [r | e]; [reflexivity|].
      unfold on_failure. destruct (get e "response"); reflexivity.
  - destruct (title s =? "")%string, (content s =? "")%string; simpl;
      split; intros V; try discriminate; try (eexists; reflexivity).
    eexists; split; [reflexivity|]. split; [|reflexivity].
    destruct outcome as [r | e]; [reflexivity|].
    unfold on_failure. destruct (get e "response"); reflexivity.
Qed.

(** C5. In url mode and in manual mode, submitting posts if and only if
    validation passes (a non-empty url; a non-empty title and a non-empty
    content).  On invalid input no request is sent and an error
    notification is the handler's only effect.  On valid input exactly one
    POST goes to /content, with the payload {input_type: 'url', url} or
    {input_type: 'manual', title, content}; when it succeeds with a
    response carrying data.id, a success notification is shown and a
    navigation to /content/{id} is scheduled after 1500 ms. *)
Theorem submit_posts_iff_valid (s : state) (outcome : settled) :
  inputType s = "url" \/ inputType s = "manual" ->
  (validation_passes s = false ->
   posts (handleSubmit API s outcome) = []
   /\ exists message, handleSubmit API s outcome = [PreventDefault; ToastError message])
  /\ (validation_passes s = true ->
      posts (handleSubmit API s outcome)
      = [Post (API ++ "/content")
           (if (inputType s =? "url")%string
            then VObj [("input_type", VStr "url"); ("url", VStr (url s))]
            else VObj [("input_type", VStr "manual"); ("title", VStr (title s));
                       ("content", VStr (content s))])])
  /\ (forall response data i,
         validation_passes s = true ->
         outcome = Resolved response ->
         get response "data" = Ok data ->
         get data "id" = Ok i ->
         In (ToastSuccess "Content added successfully! Generating traffic strategies...")
            (handleSubmit API s outcome)
         /\ In (SetTimeout (Ok ("/content/" ++ ToString i)) 1500)
               (handleSubmit API s outcome)).
Proof.
  intros M. destruct (handleSubmit_guards s outcome M) as [Bad Good].
  split; [|split].
  - intros V. destruct (Bad V) as [message E]. rewrite E.
    split; [reflexivity | eexists; reflexivity].
  - intros V. destruct (Good V) as [rest [E [P _]]]. rewrite E.
    unfold posts in *; simpl. rewrite P. unfold payload_of.
    destruct M as [M | M]; rewrite M; reflexivity.
  - intros response data i V O D I. destruct (Good V) as [rest [E [_ R]]].
    rewrite E, R, O. unfold navigate_target. rewrite D; simpl. rewrite I; simpl.
    split; right; right; right; [left | right; left]; reflexivity.
Qed.

(** C7. When the POST of a valid submission is rejected, the
    notification carries the `detail` of the backend's answer when there is
    one (here: when [error.response?.data?.detail] is truthy, in particular
    a non-empty message) and the generic message otherwise (in particular
    when detail, data or response is absent); the handler leaves the page
    idle, with the submit control enabled, and schedules no navigation. *)
Theorem submit_failure_reports_detail (s : state) (error : value) :
  inputType s = "url" \/ inputType s = "manual" ->
  validation_passes s = true ->
  nullish error = false ->
  let detail := optget (optget (optget error "response") "data") "detail" in
  let effects := handleSubmit API s (Rejected error) in
  (truthy detail = true -> In (ToastError detail) effects)
  /\ (forall message, detail = VStr message -> message <> "" ->
      In (ToastError (VStr message)) effects)
  /\ (truthy detail = false -> In (ToastError (VStr "Failed to add content")) effects)
  /\ (nullish detail = true -> In (ToastError (VStr "Failed to add content")) effects)
  /\ loading (after effects s) = false
  /\ submit_disabled (after effects s) = false
  /\ filter is_navigation effects = [].
Proof.
  intros M V N detail effects.
  destruct (handleSubmit_guards s (Rejected error) M) as [_ Good].
  destruct (Good V) as [rest [E [_ R]]].
  assert (F : effects
              = [PreventDefault; SetLoading true; Post (API ++ "/content") (payload_of s);
                 ConsoleError "Error adding content:" error;
                 ToastError (or_else detail (VStr "Failed to add content"));
                 SetLoading false]).
  { unfold effects. rewrite E, R. unfold on_failure, get. rewrite N. reflexivity. }
  assert (Shown : truthy detail = true -> In (ToastError detail) effects).
  { intros T. rewrite F. unfold or_else. rewrite T. simpl. tauto. }
  assert (Generic : truthy detail = false ->
                    In (ToastError (VStr "Failed to add content")) effects).
  { intros T. rewrite F. unfold or_else. rewrite T. simpl. tauto. }
  repeat split.
  - exact Shown.
  - intros message D NE. rewrite <- D. apply Shown. rewrite D. simpl.
    destruct (String.eqb_spec message ""); [contradiction | reflexivity].
  - exact Generic.
  - intros A. apply Generic. now apply nullish_not_truthy.
  - rewrite F. reflexivity.
  - rewrite F. reflexivity.
  - rewrite F. reflexivity.
Qed.

End AddContentPage.

(** C5 on the scenario of the specification: manual mode, title T and
    content C, and a backend that answers {id: 'abc123'}. *)
Lemma submit_posts_iff_valid_witness :
  In (AddContent.SetTimeout (Ok "/content/abc123") 1500)
     (AddContent.handleSubmit "http://backend/api"
        {| AddContent.inputType := "manual"; AddContent.url := "";
           AddContent.title := "T"; AddContent.content := "C";
           AddContent.loading := false |}
        (Resolved (VObj [("data", VObj [("id", VStr "abc123")])]))).
Proof.
  refine (proj2 (proj2 (proj2 (submit_posts_iff_valid "http://backend/api" _ _ _))
                   (VObj [("data", VObj [("id", VStr "abc123")])])
                   (VObj [("id", VStr "abc123")]) (VStr "abc123") _ _ _ _));
    solve [reflexivity | right; reflexivity].
Defined.

(** C7 on a rejected url submission whose answer carries a detail. *)
Lemma submit_failure_reports_detail_witness :
  In (AddContent.ToastError (VStr "URL or content required"))
     (AddContent.handleSubmit "http://backend/api"
        {| AddContent.inputType := "url"; AddContent.url := "https://blog.example/a";
           AddContent.title := ""; AddContent.content := "";
           AddContent.loading := false |}
        (Rejected (VObj [("response",
                          VObj [("data",
                                 VObj [("detail", VStr "URL or content required")])])]))).
Proof.
  exact (proj1 (submit_failure_reports_detail "http://backend/api"
                  {| AddContent.inputType := "url";
                     AddContent.url := "https://blog.example/a";
                     AddContent.title := ""; AddContent.content := "";
                     AddContent.loading := false |}
                  (VObj [("response",
                          VObj [("data",
                                 VObj [("detail", VStr "URL or content required")])])])
                  (or_introl eq_refl) eq_refl eq_refl)
               eq_refl).
Defined.

Section DashboardPage.
Variable API : string.

Import Dashboard.

(** C6. Deleting from the Dashboard goes through the confirmation
    dialog.  The button of a card only opens the dialog for that item;
    Cancel sends no request and leaves the list of contents as it is;
    Delete, for the item the dialog was opened for, sends exactly one
    DELETE /content/{id}.  When that request succeeds the handler closes
    the dialog and starts the full fetch again (GET /analytics and GET
    /content, behind the loading indicator) without touching the list
    itself: the list changes only when the fetch brings a new one. *)
Theorem delete_goes_through_confirmation (s : state) :
  (forall contentId,
      on_click API s (Trash contentId)
      = (openDeleteDialog s contentId, [])
      /\ deleteDialogOpen (openDeleteDialog s contentId) = true
      /\ contentToDelete (openDeleteDialog s contentId) = contentId
      /\ contents (openDeleteDialog s contentId) = contents s)
  /\ (snd (on_click API s Cancel) = []
      /\ contents (fst (on_click API s Cancel)) = contents s
      /\ deleteDialogOpen (fst (on_click API s Cancel)) = false)
  /\ (forall outcome,
         truthy (contentToDelete s) = true ->
         filter is_delete (snd (on_click API s (Confirm outcome)))
         = [Delete (API ++ "/content/" ++ ToString (contentToDelete s))])
  /\ (forall response,
         truthy (contentToDelete s) = true ->
         snd (on_click API s (Confirm (Resolved response)))
         = [Delete (API ++ "/content/" ++ ToString (contentToDelete s));
            ToastSuccess "Content deleted successfully";
            Get (API ++ "/analytics");
            Get (API ++ "/content")]
         /\ contents (fst (on_click API s (Confirm (Resolved response)))) = contents s
         /\ loading (fst (on_click API s (Confirm (Resolved response)))) = true
         /\ deleteDialogOpen (fst (on_click API s (Confirm (Resolved response)))) = false
         /\ contentToDelete (fst (on_click API s (Confirm (Resolved response)))) = VNull)
  /\ (forall s' analyticsRes contentsRes a c,
         get analyticsRes "data" = Ok a ->
         get contentsRes "data" = Ok c ->
         contents (fst (fetchData_end s' (Resolved analyticsRes, Resolved contentsRes))) = c).
Proof.
  split; [|split; [|split; [|split]]].
  - intros contentId. repeat split.
  - repeat split.
  - intros outcome T. simpl. unfold handleDelete. rewrite T; simpl.
    destruct outcome; reflexivity.
  - intros response T. simpl. unfold handleDelete. rewrite T; simpl.
    repeat split.
  - intros s' ar cr a c A C. unfold fetchData_end. rewrite A, C. reflexivity.
Qed.

End DashboardPage.

(** C6 on a list of two items: the dialog is opened for the first one and
    confirmed; one DELETE is sent and the list still has both items while
    the fetch is under way. *)
Lemma delete_goes_through_confirmation_witness :
  filter Dashboard.is_delete
    (snd (Dashboard.on_click "http://backend/api"
            {| Dashboard.analytics := VNull;
               Dashboard.contents := VArr [VObj [("id", VStr "a1")]; VObj [("id", VStr "b2")]];
               Dashboard.loading := false;
               Dashboard.deleteDialogOpen := true;
               Dashboard.contentToDelete := VStr "a1" |}
            (Dashboard.Confirm (Resolved VNull))))
  = [Dashboard.Delete "http://backend/api/content/a1"].
Proof.
  exact (proj1 (proj2 (proj2 (delete_goes_through_confirmation "http://backend/api"
           {| Dashboard.analytics := VNull;
              Dashboard.contents := VArr [VObj [("id", VStr "a1")]; VObj [("id", VStr "b2")]];
              Dashboard.loading := false;
              Dashboard.deleteDialogOpen := true;
              Dashboard.contentToDelete := VStr "a1" |})))
         (Resolved VNull) eq_refl).
Defined.

Section ContentDetailsPage.
Variable API : string.
Variable id : value.

Import EnhancedContentDetails.

Lemma mount_invariant : first_load_invariant (fst (mount API id)).
Proof.
  split; simpl; intros E; [|discriminate].
  repeat split; auto.
Qed.

Ltac settle_cases :=
  simpl in *; repeat split; intros; simpl in *;
  try discriminate; try congruence; auto;
  try (left; reflexivity); try (right; left; reflexivity);
  try (right; right; split; reflexivity).

Lemma step_invariant (p : page) (e : event) :
  first_load_invariant p -> first_load_invariant (fst (step p e)).
Proof.
  intros [A B]. destruct e as [w s]. unfold step.
  destruct (request w p) eqn:Q; [split; assumption|].
  destruct (awaiting p) eqn:W.
  - destruct (A eq_refl) as [L [C [RC [RQ P]]]].
    assert (W1 : awaiting (record w s p) = true) by (destruct w; exact W).
    rewrite W1; simpl.
    destruct s as [response | reason].
    + destruct w; simpl in *; rewrite Q in *.
      * destruct (queriesReq p) as [[qres | qerr]|] eqn:QR; simpl in *.
        -- unfold on_both. destruct (get response "data") as [c|]; simpl.
           ++ destruct (get qres "data") as [q|]; settle_cases.
           ++ rewrite C. settle_cases.
        -- discriminate.
        -- settle_cases.
      * destruct (contentReq p) as [[cres | cerr]|] eqn:CR; simpl in *.
        -- unfold on_both. destruct (get cres "data") as [c|]; simpl.
           ++ destruct (get response "data") as [q|]; settle_cases.
           ++ rewrite C. settle_cases.
        -- discriminate.
        -- settle_cases.
    + destruct w; simpl; rewrite C; settle_cases.
  - destruct (B eq_refl) as [L [T D]].
    assert (W1 : awaiting (record w s p) = false) by (destruct w; exact W).
    rewrite W1; simpl.
    split; intros E; [congruence|].
    destruct w; simpl in *; rewrite Q in *; simpl in *.
    + split; [exact L|]. split.
      * intros TC. destruct (T TC); discriminate.
      * destruct D as [D | [D | [D _]]]; try discriminate.
        destruct s; [right; left; exact D | left; reflexivity].
    + split; [exact L|]. split.
      * intros TC. destruct (T TC); discriminate.
      * destruct D as [D | [D | [_ D]]]; try discriminate.
        destruct s; [left; exact D | right; left; reflexivity].
Qed.

Lemma run_invariant (events : list event) (p : page) :
  first_load_invariant p -> first_load_invariant (fst (run p events)).
Proof.
  revert p. induction events as [|e rest IH]; intros p I; [exact I|].
  simpl. pose proof (step_invariant p e I) as I1.
  destruct (step p e) as [p1 out1]. specialize (IH p1 I1).
  destruct (run p1 rest) as [p2 out2]. exact IH.
Qed.

Lemma reachable_invariant (p : page) : reachable API id p -> first_load_invariant p.
Proof. intros [events ->]. apply run_invariant, mount_invariant. Qed.

(** Once [fetchContent] has returned, no settlement reaches the page. *)
Lemma step_after_return (p : page) (e : event) :
  awaiting p = false ->
  snd (step p e) = []
  /\ awaiting (fst (step p e)) = false
  /\ render (fst (step p e)) = render p.
Proof.
  intros W. destruct e as [w s]. unfold step.
  destruct (request w p); [repeat split; assumption|].
  assert (W1 : awaiting (record w s p) = false) by (destruct w; exact W).
  rewrite W1; simpl. repeat split; [exact W1 | destruct w; reflexivity].
Qed.

Lemma run_after_return (events : list event) (p : page) :
  awaiting p = false ->
  snd (run p events) = [] /\ render (fst (run p events)) = render p.
Proof.
  revert p. induction events as [|e rest IH]; intros p W; [split; reflexivity|].
  simpl. destruct (step_after_return p e W) as [O [W1 R]].
  destruct (step p e) as [p1 out1]; simpl in *.
  destruct (IH p1 W1) as [O2 R2].
  destruct (run p1 rest) as [p2 out2]; simpl in *.
  subst. split; [reflexivity | congruence].
Qed.

(** The first failure of a first load. *)
Lemma first_failure (p : page) (w : which) (reason : value) :
  first_load_invariant p -> awaiting p = true -> request w p = None ->
  step p (Settle w (Rejected reason))
  = (fst (on_failure (record w (Rejected reason) p) (Reason reason)),
     [ConsoleError "Error fetching content:" (Reason reason);
      ToastError "Failed to load content"])
  /\ render (fst (step p (Settle w (Rejected reason)))) = NotFound
  /\ awaiting (fst (step p (Settle w (Rejected reason)))) = false.
Proof.
  intros [A _] W Q. destruct (A W) as [_ [C _]]. unfold step. rewrite Q.
  assert (W1 : awaiting (record w (Rejected reason) p) = true) by (destruct w; exact W).
  rewrite W1; simpl. unfold render; simpl.
  destruct w; simpl; rewrite C; repeat split.
Qed.

(** C4, as amended.  [fetchContent] issues the content-by-id and the
    queries-by-content-id requests together, before it awaits either.  On
    a first load the page shows only the loading indicator for as long as
    the joined fetch is pending, that is while no request has failed and
    one at least is pending, and it shows the detail view only after both
    have resolved.  As soon as either request fails, whether or not the
    other is still pending, the page shows the error notification and the
    `Content not found' render, which no later settlement changes. *)
Theorem first_load_screens :
  snd (mount API id)
  = [Get (API ++ "/content/" ++ ToString id); Get (API ++ "/queries/" ++ ToString id)]
  /\ render (fst (mount API id)) = Spinner
  /\ (forall p, reachable API id p ->
        (rejected (contentReq p) = false -> rejected (queriesReq p) = false ->
         pending (contentReq p) = true \/ pending (queriesReq p) = true ->
         render p = Spinner)
        /\ (render p = Details ->
            resolved (contentReq p) = true /\ resolved (queriesReq p) = true))
  /\ (forall p w reason,
        reachable API id p -> render p = Spinner -> request w p = None ->
        snd (step p (Settle w (Rejected reason)))
        = [ConsoleError "Error fetching content:" (Reason reason);
           ToastError "Failed to load content"]
        /\ render (fst (step p (Settle w (Rejected reason)))) = NotFound
        /\ (forall later,
               render (fst (run (fst (step p (Settle w (Rejected reason)))) later))
               = NotFound
               /\ snd (run (fst (step p (Settle w (Rejected reason)))) later) = [])).
Proof.
  split; [reflexivity|]. split; [reflexivity|]. split.
  - intros p Rp. pose proof (reachable_invariant p Rp) as [A B]. split.
    + intros RC RQ P. destruct (awaiting p) eqn:W.
      * destruct (A eq_refl) as [L _]. unfold render. now rewrite L.
      * destruct (B eq_refl) as [_ [_ [D | [D | [D1 D2]]]]]; try congruence.
        destruct P; congruence.
    + intros Dt. unfold render in Dt.
      destruct (loading p) eqn:L; [discriminate|].
      destruct (truthy (content p)) eqn:T; [|discriminate].
      destruct (awaiting p) eqn:W.
      * destruct (A eq_refl) as [L' _]. congruence.
      * destruct (B eq_refl) as [_ [K _]]. now apply K.
  - intros p w reason Rp Sp Q.
    pose proof (reachable_invariant p Rp) as I.
    assert (W : awaiting p = true).
    { destruct (awaiting p) eqn:W; [reflexivity|].
      destruct I as [_ B]. destruct (B W) as [L _].
      unfold render in Sp. rewrite L in Sp. destruct (truthy (content p)); discriminate. }
    destruct (first_failure p w reason I W Q) as [E [N W1]].
    split; [now rewrite E|]. split; [exact N|].
    intros later. destruct (run_after_return later _ W1) as [O R].
    split; [congruence | exact O].
Qed.

End ContentDetailsPage.

(** C4 on a first load where the queries answer first and the content
    request then fails. *)
Lemma first_load_screens_witness :
  EnhancedContentDetails.render
    (fst (EnhancedContentDetails.step
            (fst (EnhancedContentDetails.run
                    (fst (EnhancedContentDetails.mount "http://backend/api" (VStr "abc123")))
                    [EnhancedContentDetails.Settle EnhancedContentDetails.QueriesReq
                       (Resolved (VObj [("data", VArr [])]))]))
            (EnhancedContentDetails.Settle EnhancedContentDetails.ContentReq
               (Rejected (VStr "Request failed with status code 404")))))
  = EnhancedContentDetails.NotFound.
Proof.
  exact (proj1 (proj2 (proj2 (proj2 (proj2
           (first_load_screens "http://backend/api" (VStr "abc123"))))
           (fst (EnhancedContentDetails.run
                   (fst (EnhancedContentDetails.mount "http://backend/api" (VStr "abc123")))
                   [EnhancedContentDetails.Settle EnhancedContentDetails.QueriesReq
                      (Resolved (VObj [("data", VArr [])]))]))
           EnhancedContentDetails.ContentReq
           (VStr "Request failed with status code 404")
           (ex_intro _
              [EnhancedContentDetails.Settle EnhancedContentDetails.QueriesReq
                 (Resolved (VObj [("data", VArr [])]))] eq_refl)
           eq_refl eq_refl))).
Defined.

(** C4 as stated fails: the content request is rejected while the queries
    request is still pending; Promise.all rejects at once, and the page shows
    `Content not found', not the loading indicator. *)
Lemma loading_while_pending_counterexample :
  EnhancedContentDetails.pending
    (EnhancedContentDetails.queriesReq
       (fst (EnhancedContentDetails.run
               (fst (EnhancedContentDetails.mount "http://backend/api" (VStr "abc123")))
               [EnhancedContentDetails.Settle EnhancedContentDetails.ContentReq
                  (Rejected (VStr "Network Error"))])))
  = true
  /\ EnhancedContentDetails.render
       (fst (EnhancedContentDetails.run
               (fst (EnhancedContentDetails.mount "http://backend/api" (VStr "abc123")))
               [EnhancedContentDetails.Settle EnhancedContentDetails.ContentReq
                  (Rejected (VStr "Network Error"))]))
     = EnhancedContentDetails.NotFound
  /\ EnhancedContentDetails.render
       (fst (EnhancedContentDetails.run
               (fst (EnhancedContentDetails.mount "http://backend/api" (VStr "abc123")))
               [EnhancedContentDetails.Settle EnhancedContentDetails.ContentReq
                  (Rejected (VStr "Network Error"))]))
     <> EnhancedContentDetails.Spinner.
Proof.
  repeat split. simpl. discriminate.
Qed.

Section ExportModalComponent.
Variable origin : string.
Variable contentId : value.

Import ExportModal.

Lemma elapse_before (now t : Z) (c : value) :
  t < now + 2000 ->
  elapse t {| copied := c; timers := [now + 2000] |}
  = {| copied := c; timers := [now + 2000] |}.
Proof.
  intros B. unfold elapse; simpl.
  destruct (Z.leb_spec (now + 2000) t); [lia | reflexivity].
Qed.

Lemma elapse_after (now t : Z) (c : value) (pending : list Z) :
  now + 2000 <= t ->
  copied (elapse t {| copied := c; timers := (pending ++ [now + 2000])%list |}) = VNull.
Proof.
  intros B. unfold elapse; simpl. rewrite filter_app; simpl.
  destruct (Z.leb_spec (now + 2000) t); [|lia].
  destruct (filter _ pending); reflexivity.
Qed.

(** C8, as amended.  Each of the two actions copies its URL to the
    clipboard ({origin}/share/{id}, {origin}/api/sitemap.xml) and shows its
    `copied' acknowledgement; the acknowledgement is gone 2 seconds after
    the action if no other action follows, and an action taken when no
    timeout is pending keeps its acknowledgement for the whole 2 seconds.
    The two acknowledgements share one indicator: triggering one action
    takes the other's acknowledgement away. *)
Theorem copy_acknowledgement (now : Z) (s : state) :
  (snd (copyShareLink origin contentId now s)
   = [ClipboardWrite (origin ++ "/share/" ++ ToString contentId);
      ToastSuccess "Share link copied!"]
   /\ link_acknowledged (fst (copyShareLink origin contentId now s)) = true
   /\ sitemap_acknowledged (fst (copyShareLink origin contentId now s)) = false)
  /\ (snd (copySitemapUrl origin now s)
      = [ClipboardWrite (origin ++ "/api/sitemap.xml");
         ToastSuccess "Sitemap URL copied!"]
      /\ sitemap_acknowledged (fst (copySitemapUrl origin now s)) = true
      /\ link_acknowledged (fst (copySitemapUrl origin now s)) = false)
  /\ (forall t, now + 2000 <= t ->
        copied (elapse t (fst (copyShareLink origin contentId now s))) = VNull
        /\ copied (elapse t (fst (copySitemapUrl origin now s))) = VNull)
  /\ (timers s = [] ->
      forall t, now <= t < now + 2000 ->
        link_acknowledged (elapse t (fst (copyShareLink origin contentId now s))) = true
        /\ sitemap_acknowledged (elapse t (fst (copySitemapUrl origin now s))) = true).
Proof.
  split; [repeat split|]. split; [repeat split|]. split.
  - intros t B. split; apply elapse_after; exact B.
  - intros E t [_ B]. unfold copyShareLink, copySitemapUrl; simpl. rewrite E; simpl.
    rewrite !elapse_before by exact B. split; reflexivity.
Qed.

End ExportModalComponent.

(** C8 on a share link copied at time 0 in a fresh modal and looked at one
    second and a half later. *)
Lemma copy_acknowledgement_witness :
  ExportModal.link_acknowledged
    (ExportModal.elapse 1500
       (fst (ExportModal.copyShareLink "https://app.example" (VStr "abc123") 0
               ExportModal.initial)))
  = true.
Proof.
  refine (proj1 (proj2 (proj2 (proj2
            (copy_acknowledgement "https://app.example" (VStr "abc123") 0
               ExportModal.initial)))
            eq_refl 1500 _)).
  lia.
Defined.

(** C8 as stated fails: the share link is copied at time 0 and the sitemap
    URL one second later.  The acknowledgement of the share link is gone at
    once, after 1 second instead of 2; the timeout of the first action then
    removes the acknowledgement of the sitemap URL at time 2000, 1 second
    after it was triggered. *)
Lemma acknowledgements_interfere_counterexample :
  ExportModal.link_acknowledged
    (ExportModal.play "https://app.example" (VStr "abc123")
       [(0, ExportModal.ShareLink)] 1000 ExportModal.initial) = true
  /\ ExportModal.link_acknowledged
       (ExportModal.play "https://app.example" (VStr "abc123")
          [(0, ExportModal.ShareLink); (1000, ExportModal.SitemapUrl)] 1000
          ExportModal.initial) = false
  /\ ExportModal.sitemap_acknowledged
       (ExportModal.play "https://app.example" (VStr "abc123")
          [(1000, ExportModal.SitemapUrl)] 2000 ExportModal.initial) = true
  /\ ExportModal.sitemap_acknowledged
       (ExportModal.play "https://app.example" (VStr "abc123")
          [(0, ExportModal.ShareLink); (1000, ExportModal.SitemapUrl)] 2000
          ExportModal.initial) = false.
Proof.
  repeat split.
Qed.

(* ================================================================== *)
(** * Further properties of the section renderers *)

Section RendererDetails.
Context {host : Host}.

Lemma prefix_letter (a c : ascii) (rest : string) :
  String.prefix (String a EmptyString) (String c rest) = Ascii.eqb c a.
Proof.
  assert (P : String.prefix (String a EmptyString) (String c rest)
              = if Ascii.ascii_dec a c then true else false).
  { cbn [String.prefix]. destruct (Ascii.ascii_dec a c); [|reflexivity].
    destruct rest; reflexivity. }
  rewrite P. destruct (Ascii.ascii_dec a c) as [E | N].
  - subst. symmetry. apply Ascii.eqb_refl.
  - symmetry. apply Ascii.eqb_neq. congruence.
Qed.

(** X1. The colour of the grade pill depends on the first character of
    the grade alone, and on its case: A gives green, B blue, C orange, every
    other first character (a lower-case a, b or c included) and the empty
    grade give red. *)
Theorem grade_pill_by_first_letter :
  (forall (c : ascii) (rest : string),
      SEOScoreCard.getGradeColor (VStr (String c rest))
      = Ok (if Ascii.eqb c "A" then "text-green-600 bg-green-100"
            else if Ascii.eqb c "B" then "text-blue-600 bg-blue-100"
            else if Ascii.eqb c "C" then "text-orange-600 bg-orange-100"
            else "text-red-600 bg-red-100"))
  /\ SEOScoreCard.getGradeColor (VStr "") = Ok "text-red-600 bg-red-100".
Proof.
  split; [|reflexivity].
  intros c rest. unfold SEOScoreCard.getGradeColor, startsWith.
  cbn [bind]. rewrite !prefix_letter.
  destruct (Ascii.eqb c "A"); [reflexivity|].
  destruct (Ascii.eqb c "B"); [reflexivity|].
  destruct (Ascii.eqb c "C"); reflexivity.
Qed.

Lemma gt_number (n k : Z) : gt (VNum n) k = (k <? n).
Proof. reflexivity. Qed.

(** X2. The age line of ContentFreshness: `Created today' for 0 days,
    `1 day old' for one day, and the plural `n days old' for every larger
    number of days. *)
Theorem age_line_plural (freshness contentId : value) (onRefresh : bool) (n : Z) :
  truthy freshness = true ->
  optget freshness "days_old" = VNum n ->
  exists v,
    ContentFreshness.ContentFreshness freshness contentId onRefresh = Some v
    /\ (n = 0 -> ContentFreshness.age_text v = "Created today")
    /\ (n = 1 -> ContentFreshness.age_text v = "1 day old")
    /\ (2 <= n -> ContentFreshness.age_text v = Z_to_string n ++ " days old").
Proof.
  intros T D. unfold ContentFreshness.ContentFreshness. rewrite T; simpl.
  eexists; split; [reflexivity|]. simpl. rewrite D.
  split; [|split]; intros E.
  - subst n. reflexivity.
  - subst n. reflexivity.
  - destruct n as [|p|p]; try lia. rewrite gt_number.
    destruct (Z.ltb_spec 1 (Z.pos p)); [reflexivity | lia].
Qed.

Lemma mapM_throws {B} (f : value -> result B) (l : list value) (x : value) :
  In x l -> f x = Throw TypeError -> mapM f l = Throw TypeError.
Proof.
  induction l as [|y r IH]; intros I E; [contradiction|].
  simpl. destruct I as [-> | I].
  - now rewrite E.
  - destruct (f y) as [b | []]; simpl; [|reflexivity].
    now rewrite (IH I E).
Qed.

Lemma firstn_bound {A} (n : nat) (l : list A) : (List.length (firstn n l) <= n)%nat.
Proof. apply firstn_le_length. Qed.

(** X3. The keyword coverage panel shows at most eight missing keywords:
    the first eight of the list, in the order of the list. *)
Theorem missing_keywords_first_eight (keywordGap : value) (keywords : list value) :
  truthy keywordGap = true ->
  number_or_absent (optget keywordGap "coverage_score") = true ->
  optget keywordGap "missing_keywords" = VArr keywords ->
  keywords <> [] ->
  exists panel,
    TrafficInsights.render_coverage keywordGap = Ok (Shown panel)
    /\ TrafficInsights.missing_keyword_chips panel = Shown (firstn 8 keywords)
    /\ (List.length (firstn 8 keywords) <= 8)%nat.
Proof.
  intros T C M N. unfold TrafficInsights.render_coverage. rewrite T; simpl.
  destruct (number_toFixed _ 0%nat C) as [c ->]; simpl.
  rewrite M. unfold guarded_map; simpl. rewrite gt_number.
  destruct keywords as [|k ks]; [contradiction|].
  change (0 <? Z.of_nat (List.length (k :: ks))) with true.
  rewrite mapM_Ok; simpl.
  eexists; split; [reflexivity|]. split; [reflexivity|].
  apply (firstn_bound 8 (k :: ks)).
Qed.

End RendererDetails.

(** X2 on a slice that is three days old. *)
Lemma age_line_plural_witness :
  exists v,
    @ContentFreshness.ContentFreshness example_host
      (VObj [("freshness_score", VNum 88); ("days_old", VNum 3)]) (VStr "c1") false = Some v
    /\ ContentFreshness.age_text v = "3 days old".
Proof.
  destruct (@age_line_plural example_host
              (VObj [("freshness_score", VNum 88); ("days_old", VNum 3)])
              (VStr "c1") false 3 eq_refl eq_refl) as [v [R [_ [_ P]]]].
  exists v. split; [exact R|]. apply P. lia.
Defined.

(** X3 on a list of nine missing keywords. *)
Lemma missing_keywords_first_eight_witness :
  exists panel,
    @TrafficInsights.render_coverage example_host
      (VObj [("missing_keywords",
              VArr [VStr "a"; VStr "b"; VStr "c"; VStr "d"; VStr "e";
                    VStr "f"; VStr "g"; VStr "h"; VStr "i"])])
    = Ok (Shown panel)
    /\ TrafficInsights.missing_keyword_chips panel
       = Shown [VStr "a"; VStr "b"; VStr "c"; VStr "d"; VStr "e";
                VStr "f"; VStr "g"; VStr "h"].
Proof.
  destruct (@missing_keywords_first_eight example_host
              (VObj [("missing_keywords",
                      VArr [VStr "a"; VStr "b"; VStr "c"; VStr "d"; VStr "e";
                            VStr "f"; VStr "g"; VStr "h"; VStr "i"])])
              [VStr "a"; VStr "b"; VStr "c"; VStr "d"; VStr "e";
               VStr "f"; VStr "g"; VStr "h"; VStr "i"]
              eq_refl eq_refl eq_refl ltac:(discriminate))
    as [panel [R [P _]]].
  exists panel. split; [exact R | exact P].
Defined.

Section RendererNumbers.
Context {host : Host}.






(** X5. TrafficInsights calls toFixed on the quality score and on the
    readability score of the factors without looking at their type: when
    either is present and is not a number, rendering raises a TypeError. *)
Theorem decimal_factor_must_be_number (tp kg serp fr : value) :
  truthy tp = true ->
  number_or_absent (optget (optget tp "factors") "quality_score") = false
  \/ number_or_absent (optget (optget tp "factors") "readability_score") = false ->
  TrafficInsights.TrafficInsights tp kg serp fr = Throw TypeError.
Proof.
  intros T B. unfold TrafficInsights.TrafficInsights. rewrite T; simpl.
  destruct B as [B | B].
  - destruct (optget (optget tp "factors") "quality_score");
      try discriminate; reflexivity.
  - destruct (opt_toFixed (optget (optget tp "factors") "quality_score") 1)
      as [q | []]; simpl; [|reflexivity].
    destruct (optget (optget tp "factors") "readability_score");
      try discriminate; reflexivity.
Qed.

(** X6. A sequence that is absent or empty renders no block at all: the
    JSX idiom [xs && xs.length > 0 && ...] hands React an operand that shows
    no text, and the body is not evaluated, whatever it is. *)
Theorem empty_sequence_renders_nothing {B} (xs : value) (body : value -> result (list B)) :
  nullish xs = true \/ xs = VArr [] ->
  exists operand,
    guarded_map xs body = Ok (Hidden operand) /\ reactText operand = Some "".
Proof.
  intros [E | ->].
  - unfold guarded_map. rewrite (nullish_not_truthy _ E).
    exists xs. split; [reflexivity|]. now apply absent_shows_nothing.
  - exists (VBool false). split; reflexivity.
Qed.

(** X7. SEOScoreCard always lays out the same five rows, in the same
    order and out of 20 each, whatever the breakdown holds; a row shows the
    breakdown's value for its key when that value is truthy. *)
Theorem breakdown_has_five_rows (seoScore : value) (v : SEOScoreCard.view) :
  SEOScoreCard.SEOScoreCard seoScore = Ok (Some v) ->
  map SEOScoreCard.row_label (SEOScoreCard.rows v)
  = ["Title Optimization"; "Meta Description"; "Keywords"; "Content Quality";
     "Technical SEO"]
  /\ map SEOScoreCard.row_max (SEOScoreCard.rows v) = [20; 20; 20; 20; 20]
  /\ (forall r, In r (SEOScoreCard.rows v) ->
        truthy (optget (optget seoScore "breakdown") (SEOScoreCard.row_key r)) = true ->
        SEOScoreCard.row_score r
        = optget (optget seoScore "breakdown") (SEOScoreCard.row_key r)).
Proof.
  unfold SEOScoreCard.SEOScoreCard.
  destruct (truthy seoScore); simpl; [|discriminate].
  destruct (SEOScoreCard.getGradeColor _) as [gc|]; simpl; [|discriminate].
  destruct (guarded_map _ _) as [recs|]; simpl; [|discriminate].
  intros [= <-]; simpl. split; [reflexivity|]. split; [reflexivity|].
  intros r I T.
  repeat (destruct I as [<- | I];
          [simpl in *; unfold or_else; now rewrite T|]).
  contradiction.
Qed.

(** X8. The two places of SEOScoreCard that colour the overall score, the
    function getScoreColor for the figure and the inline conditional for the
    bar, always name the same colour, whatever the score is. *)
Theorem score_and_bar_share_colour (seoScore : value) (v : SEOScoreCard.view) :
  SEOScoreCard.SEOScoreCard seoScore = Ok (Some v) ->
  exists colour,
    In colour ["green"; "blue"; "orange"; "red"]
    /\ SEOScoreCard.score_class v = "text-" ++ colour ++ "-600"
    /\ SEOScoreCard.bar_class v = "bg-" ++ colour ++ "-600".
Proof.
  unfold SEOScoreCard.SEOScoreCard.
  destruct (truthy seoScore); simpl; [|discriminate].
  destruct (SEOScoreCard.getGradeColor _) as [gc|]; simpl; [|discriminate].
  destruct (guarded_map _ _) as [recs|]; simpl; [|discriminate].
  intros [= <-]; simpl. unfold SEOScoreCard.getScoreColor.
  destruct (ge _ 85); [exists "green"; simpl; tauto|].
  destruct (ge _ 70); [exists "blue"; simpl; tauto|].
  destruct (ge _ 50); [exists "orange"; simpl; tauto|].
  exists "red"; simpl; tauto.
Qed.

End RendererNumbers.


(** X5 on a prediction whose quality score came as text. *)
Lemma decimal_factor_must_be_number_witness :
  @TrafficInsights.TrafficInsights example_host
    (VObj [("factors", VObj [("quality_score", VStr "7.5")])]) VNull VNull VNull
  = Throw TypeError.
Proof.
  exact (@decimal_factor_must_be_number example_host
           (VObj [("factors", VObj [("quality_score", VStr "7.5")])]) VNull VNull VNull
           eq_refl (or_introl eq_refl)).
Defined.

(** X6 on an empty list of recommendations. *)
Lemma empty_sequence_renders_nothing_witness :
  exists operand,
    @guarded_map example_host value (VArr [])
      (fun xs => array_map xs (fun rec => Ok rec)) = Ok (Hidden operand)
    /\ reactText operand = Some "".
Proof.
  exact (@empty_sequence_renders_nothing example_host value (VArr [])
           (fun xs => array_map xs (fun rec => Ok rec)) (or_intror eq_refl)).
Defined.

(** X7 and X8 on a card with one score in its breakdown. *)
Lemma breakdown_has_five_rows_witness :
  exists v,
    @SEOScoreCard.SEOScoreCard example_host
      (VObj [("overall_score", VNum 72); ("grade", VStr "B");
             ("breakdown", VObj [("title", VNum 15); ("links", VNum 9)])]) = Ok (Some v)
    /\ map SEOScoreCard.row_max (SEOScoreCard.rows v) = [20; 20; 20; 20; 20].
Proof.
  eexists. split; [reflexivity|].
  refine (proj1 (proj2 (@breakdown_has_five_rows example_host
            (VObj [("overall_score", VNum 72); ("grade", VStr "B");
                   ("breakdown", VObj [("title", VNum 15); ("links", VNum 9)])]) _ _))).
  reflexivity.
Defined.

Lemma score_and_bar_share_colour_witness :
  exists v colour,
    @SEOScoreCard.SEOScoreCard example_host
      (VObj [("overall_score", VNum 72); ("grade", VStr "B")]) = Ok (Some v)
    /\ SEOScoreCard.score_class v = "text-" ++ colour ++ "-600"
    /\ SEOScoreCard.bar_class v = "bg-" ++ colour ++ "-600".
Proof.
  eexists.
  destruct (@score_and_bar_share_colour example_host
              (VObj [("overall_score", VNum 72); ("grade", VStr "B")]) _ eq_refl)
    as [colour [_ [A B]]].
  exists colour. split; [reflexivity|]. split; [exact A | exact B].
Defined.

Section ClusterCards.
Context {host : Host}.

(** X9. TopicClusters reads the fields of every element of
    cluster_topics: one element that is null (or undefined) makes the whole
    component raise a TypeError, although the pillar topic is there. *)
Theorem null_cluster_raises (topicClusters : value) (topics : list value) (bad : value) :
  truthy topicClusters = true ->
  truthy (optget topicClusters "pillar_topic") = true ->
  sequence_or_absent (optget topicClusters "pillar_keywords") = true ->
  optget topicClusters "cluster_topics" = VArr topics ->
  In bad topics -> nullish bad = true ->
  TopicClusters.TopicClusters topicClusters = Throw TypeError.
Proof.
  intros T P K C I N. unfold TopicClusters.TopicClusters. rewrite T, P; simpl.
  destruct (guarded_map_sequence _ K) as [chips ->]; simpl.
  rewrite C. unfold guarded_map; simpl. rewrite gt_number.
  destruct topics as [|t ts]; [contradiction|].
  change (0 <? Z.of_nat (List.length (t :: ts))) with true.
  assert (M : mapM TopicClusters.render_cluster (t :: ts) = Throw TypeError).
  { apply (mapM_throws _ _ bad I).
    unfold TopicClusters.render_cluster, get. now rewrite N. }
  cbn [bind]. rewrite M. reflexivity.
Qed.

Lemma render_cluster_object (fields : list (string * value)) :
  sequence_or_absent (lookup "keywords" fields) = true ->
  exists card,
    TopicClusters.render_cluster (VObj fields) = Ok card
    /\ TopicClusters.topic card = lookup "topic" fields
    /\ TopicClusters.relationship card = lookup "relationship" fields.
Proof.
  intros K. unfold TopicClusters.render_cluster; simpl.
  destruct (guarded_map_sequence _ K) as [kws ->]; simpl.
  eexists; repeat split.
Qed.

Lemma render_clusters_objects (topics : list (list (string * value))) :
  Forall (fun fields => sequence_or_absent (lookup "keywords" fields) = true) topics ->
  exists cards,
    mapM TopicClusters.render_cluster (map VObj topics) = Ok cards
    /\ map TopicClusters.topic cards = map (lookup "topic") topics.
Proof.
  induction 1 as [|fields rest K _ IH]; [exists []; split; reflexivity|].
  destruct (render_cluster_object fields K) as [card [R [Tp _]]].
  destruct IH as [cards [M Ts]].
  exists (card :: cards). simpl. rewrite R; simpl. rewrite M; simpl.
  split; [reflexivity|]. now rewrite Tp, Ts.
Qed.

(** X10. For cluster topics that are records (each with a sequence of
    keywords, or none), TopicClusters shows one card per cluster topic, in
    the order of the list, each under the topic of its record. *)
Theorem one_card_per_cluster (topicClusters : value) (topics : list (list (string * value))) :
  truthy topicClusters = true ->
  truthy (optget topicClusters "pillar_topic") = true ->
  sequence_or_absent (optget topicClusters "pillar_keywords") = true ->
  optget topicClusters "cluster_topics" = VArr (map VObj topics) ->
  topics <> [] ->
  Forall (fun fields => sequence_or_absent (lookup "keywords" fields) = true) topics ->
  exists v cards,
    TopicClusters.TopicClusters topicClusters = Ok (Some v)
    /\ TopicClusters.pillar v = optget topicClusters "pillar_topic"
    /\ TopicClusters.clusters v = Shown cards
    /\ map TopicClusters.topic cards = map (lookup "topic") topics.
Proof.
  intros T P K C N F. unfold TopicClusters.TopicClusters. rewrite T, P; simpl.
  destruct (guarded_map_sequence _ K) as [chips ->]; simpl.
  rewrite C. unfold guarded_map; simpl. rewrite gt_number.
  destruct topics as [|t ts]; [contradiction|].
  change (0 <? Z.of_nat (List.length (map VObj (t :: ts)))) with true.
  destruct (render_clusters_objects (t :: ts) F) as [cards [M Ts]].
  cbn [bind]. rewrite M. cbn [bind].
  exists {| TopicClusters.pillar := optget topicClusters "pillar_topic";
            TopicClusters.pillar_keyword_chips := chips;
            TopicClusters.clusters := Shown cards |}, cards.
  repeat split; assumption.
Qed.

End ClusterCards.

(** X9 on a list whose second element is null. *)
Lemma null_cluster_raises_witness :
  @TopicClusters.TopicClusters example_host
    (VObj [("pillar_topic", VStr "SEO");
           ("cluster_topics", VArr [VObj [("topic", VStr "Links")]; VNull])])
  = Throw TypeError.
Proof.
  exact (@null_cluster_raises example_host
           (VObj [("pillar_topic", VStr "SEO");
                  ("cluster_topics", VArr [VObj [("topic", VStr "Links")]; VNull])])
           [VObj [("topic", VStr "Links")]; VNull] VNull
           eq_refl eq_refl eq_refl eq_refl (or_intror (or_introl eq_refl)) eq_refl).
Defined.

(** X10 on two cluster topics. *)
Lemma one_card_per_cluster_witness :
  exists v cards,
    @TopicClusters.TopicClusters example_host
      (VObj [("pillar_topic", VStr "SEO");
             ("cluster_topics",
              VArr [VObj [("topic", VStr "Links")]; VObj [("topic", VStr "Speed")]])])
    = Ok (Some v)
    /\ TopicClusters.clusters v = Shown cards
    /\ map TopicClusters.topic cards = [VStr "Links"; VStr "Speed"].
Proof.
  destruct (@one_card_per_cluster example_host
              (VObj [("pillar_topic", VStr "SEO");
                     ("cluster_topics",
                      VArr [VObj [("topic", VStr "Links")]; VObj [("topic", VStr "Speed")]])])
              [[("topic", VStr "Links")]; [("topic", VStr "Speed")]]
              eq_refl eq_refl eq_refl eq_refl ltac:(discriminate)
              ltac:(repeat constructor))
    as [v [cards [R [_ [C Ts]]]]].
  exists v, cards. split; [exact R|]. split; [exact C | exact Ts].
Defined.

Section ExportDownload.
Variable API : string.
Variable contentId : value.

Import ExportModalDownload.


End ExportDownload.


Section ExportModalSessions.
Variable origin : string.
Variable contentId : value.

Import ExportModal.

Lemma elapse_keeps_bound (bound now : Z) (s : state) :
  Forall (fun d => d <= bound) (timers s) ->
  (timers s = [] -> copied s = VNull) ->
  Forall (fun d => d <= bound) (timers (elapse now s))
  /\ (timers (elapse now s) = [] -> copied (elapse now s) = VNull).
Proof.
  intros F N. unfold elapse; simpl. split.
  - apply Forall_forall. intros d I. apply filter_In in I.
    rewrite Forall_forall in F. apply F. tauto.
  - intros E. destruct (filter (fun t => t <=? now) (timers s)) as [|d ds] eqn:D;
      [|reflexivity].
    apply N. destruct (timers s) as [|t ts]; [reflexivity|].
    simpl in D, E. destruct (t <=? now); simpl in *; discriminate.
Qed.

Lemma all_due (bound now : Z) (l : list Z) :
  Forall (fun d => d <= bound) l -> bound <= now ->
  filter (fun t => negb (t <=? now)) l = []
  /\ (l <> [] -> filter (fun t => t <=? now) l <> []).
Proof.
  intros F B. induction F as [|t ts Ft Fts [IH _]]; [split; [reflexivity | tauto]|].
  simpl. destruct (Z.leb_spec t now); [|lia]. simpl.
  split; [exact IH | discriminate].
Qed.

Lemma elapse_all_due (bound now : Z) (s : state) :
  Forall (fun d => d <= bound) (timers s) ->
  (timers s = [] -> copied s = VNull) ->
  bound <= now ->
  elapse now s = initial.
Proof.
  intros F N B. unfold elapse, initial.
  destruct (all_due bound now (timers s) F B) as [L D]. rewrite L.
  destruct (timers s) as [|t ts] eqn:Ts.
  - simpl. now rewrite N.
  - destruct (filter (fun t0 => t0 <=? now) (t :: ts)); [|reflexivity].
    now elim D.
Qed.

Lemma play_reverts (clicks : list (Z * click)) (last at_ : Z) (s : state) :
  Forall (fun tc => fst tc <= last) clicks ->
  Forall (fun d => d <= last + 2000) (timers s) ->
  (timers s = [] -> copied s = VNull) ->
  last + 2000 <= at_ ->
  play origin contentId clicks at_ s = initial.
Proof.
  revert s. induction clicks as [|[t c] rest IH]; intros s C F N B; simpl.
  - now apply (elapse_all_due (last + 2000)).
  - inversion C as [|? ? Ct Crest]; subst. simpl in Ct.
    destruct (Z.leb_spec t at_); [|lia].
    destruct (elapse_keeps_bound (last + 2000) t s F N) as [F1 _].
    apply IH; try assumption.
    + destruct c; simpl; apply Forall_app; (split; [exact F1|]);
        constructor; [lia | constructor | lia | constructor].
    + destruct c; simpl; intros E; apply app_eq_nil in E; destruct E as [_ E];
        discriminate.
Qed.

(** X12. The `copied' acknowledgement of ExportModal never sticks: for
    every sequence of copy actions, 2 seconds after the last of them the
    indicator is back to null and no timeout is left pending. *)
Theorem acknowledgement_always_reverts (clicks : list (Z * click)) (last at_ : Z) :
  Forall (fun tc => fst tc <= last) clicks ->
  last + 2000 <= at_ ->
  play origin contentId clicks at_ initial = initial
  /\ link_acknowledged (play origin contentId clicks at_ initial) = false
  /\ sitemap_acknowledged (play origin contentId clicks at_ initial) = false.
Proof.
  intros C B.
  assert (P : play origin contentId clicks at_ initial = initial).
  { apply (play_reverts clicks last); try assumption; [constructor | reflexivity]. }
  rewrite P. repeat split.
Qed.

End ExportModalSessions.

(** X12 on three copy actions within a second. *)
Lemma acknowledgement_always_reverts_witness :
  ExportModal.play "https://app.example" (VStr "abc123")
    [(0, ExportModal.ShareLink); (400, ExportModal.SitemapUrl); (900, ExportModal.ShareLink)]
    2900 ExportModal.initial
  = ExportModal.initial.
Proof.
  refine (proj1 (acknowledgement_always_reverts "https://app.example" (VStr "abc123")
                   [(0, ExportModal.ShareLink); (400, ExportModal.SitemapUrl);
                    (900, ExportModal.ShareLink)] 900 2900 _ _)).
  - repeat constructor; simpl; lia.
  - lia.
Defined.

Section DashboardSessions.
Context {host : Host}.
Variable API : string.

Import Dashboard DashboardRender.

(** X13. A fetch of the dashboard that fails (either request rejected)
    takes the spinner down, shows the one notification `Failed to load data'
    and keeps whatever analytics and list the page held.  After a failed
    first fetch the page is therefore the one of an empty library: four tiles
    at 0, no chart and the empty state. *)
Theorem failed_fetch_keeps_data (s : state) (joined : settled * settled) :
  (exists reason, fst joined = Rejected reason)
  \/ (exists reason, snd joined = Rejected reason) ->
  let s' := fst (fetchData_end s joined) in
  loading s' = false
  /\ analytics s' = analytics s
  /\ contents s' = contents s
  /\ filter (fun e => match e with ToastError _ => true | _ => false end)
       (snd (fetchData_end s joined))
     = [ToastError "Failed to load data"]
  /\ (analytics s = VNull -> contents s = VArr [] ->
      DashboardRender.Dashboard s'
      = Ok (Loaded {| stat_tiles := {| total_content := VNum 0; total_queries := VNum 0;
                                       avg_performance_score := VNum 0;
                                       avg_readability_score := VNum 0 |};
                      chart := Hidden VUndefined;
                      content_list := EmptyState |})).
Proof.
  intros R s'.
  assert (E : exists error,
             fetchData_end s joined
             = ({| analytics := analytics s; contents := contents s; loading := false;
                   deleteDialogOpen := deleteDialogOpen s;
                   contentToDelete := contentToDelete s |},
                [ConsoleError "Error fetching data:" (Reason error);
                 ToastError "Failed to load data"])).
  { destruct joined as [[a | ea] [c | ec]]; simpl in *;
      destruct R as [[r R] | [r R]]; try discriminate; eexists; reflexivity. }
  destruct E as [error E]. unfold s'. rewrite E; simpl.
  repeat split. intros A C. unfold DashboardRender.Dashboard; simpl.
  rewrite A, C. reflexivity.
Qed.


Lemma run_deletes (clicks : list click) (s : state) (endpoint : string) :
  In (Delete endpoint) (snd (run API s clicks)) ->
  exists contentId,
    (contentId = contentToDelete s \/ In contentId (trashed clicks))
    /\ truthy contentId = true
    /\ endpoint = API ++ "/content/" ++ ToString contentId.
Proof.
  revert s. induction clicks as [|c rest IH]; intros s I; [contradiction|].
  simpl in I. destruct (on_click API s c) as [s1 out1] eqn:C.
  destruct (run API s1 rest) as [s2 out2] eqn:R. simpl in I.
  apply in_app_or in I. destruct I as [I | I].
  - destruct c as [i | | outcome]; simpl in C.
    + injection C as <- <-. contradiction.
    + injection C as <- <-. contradiction.
    + unfold handleDelete in C.
      destruct (truthy (contentToDelete s)) eqn:T; simpl in C.
      * exists (contentToDelete s). split; [left; reflexivity|]. split; [exact T|].
        destruct outcome; injection C as <- <-; simpl in I;
          repeat (destruct I as [I | I]; try discriminate; try contradiction);
          injection I as <-; reflexivity.
      * injection C as <- <-. contradiction.
  - assert (I2 : In (Delete endpoint) (snd (run API s1 rest))) by now rewrite R.
    destruct (IH s1 I2) as [i [[E | E] [T P]]].
    + destruct c as [j | | outcome]; simpl in C.
      * injection C as <- <-. exists i. split; [right; left; now rewrite E|]. tauto.
      * injection C as <- <-. exists i. split; [left; exact E|]. tauto.
      * unfold handleDelete in C.
        destruct (truthy (contentToDelete s)); simpl in C.
        -- destruct outcome; injection C as <- <-; simpl in E.
           ++ subst i. discriminate.
           ++ exists i. split; [left; exact E|]. tauto.
        -- injection C as <- <-. exists i. split; [left; exact E|]. tauto.
    + exists i. split; [|tauto]. right.
      destruct c; simpl; auto.
Qed.

(** X15. Whatever the user clicks, in whatever order, the Dashboard only
    ever sends a DELETE for an item whose trash button was clicked before:
    every DELETE of a session goes to /content/{id} for an id among the
    trashed ones. *)
Theorem delete_only_what_was_trashed (clicks : list click) (endpoint : string) :
  In (Delete endpoint) (snd (run API initial clicks)) ->
  exists contentId,
    In contentId (trashed clicks)
    /\ endpoint = API ++ "/content/" ++ ToString contentId.
Proof.
  intros I. destruct (run_deletes clicks initial endpoint I) as [i [[E | E] [T P]]].
  - subst i. discriminate.
  - exists i. tauto.
Qed.

End DashboardSessions.

(** X13 on the first fetch of the page, with the list request refused. *)
Lemma failed_fetch_keeps_data_witness :
  exists v,
    @DashboardRender.Dashboard example_host
      (fst (Dashboard.fetchData_end Dashboard.initial
              (Resolved (VObj [("data", VObj [("total_content", VNum 3)])]),
               Rejected (VStr "Network Error"))))
    = Ok (DashboardRender.Loaded v)
    /\ DashboardRender.content_list v = DashboardRender.EmptyState.
Proof.
  eexists. split.
  - exact (proj2 (proj2 (proj2 (proj2
             (@failed_fetch_keeps_data example_host Dashboard.initial
                (Resolved (VObj [("data", VObj [("total_content", VNum 3)])]),
                 Rejected (VStr "Network Error"))
                (or_intror (ex_intro _ (VStr "Network Error") eq_refl))))))
           eq_refl eq_refl).
  - reflexivity.
Defined.


(** X15 on a session that opens the dialog for two items in turn and
    confirms the second. *)
Lemma delete_only_what_was_trashed_witness :
  exists contentId,
    In contentId [VStr "a1"; VStr "b2"]
    /\ "http://backend/api/content/b2" = "http://backend/api/content/" ++ ToString contentId.
Proof.
  exact (delete_only_what_was_trashed "http://backend/api"
           [Dashboard.Trash (VStr "a1"); Dashboard.Cancel; Dashboard.Trash (VStr "b2");
            Dashboard.Confirm (Resolved VNull)]
           "http://backend/api/content/b2"
           (or_introl eq_refl)).
Defined.

Section DashboardCards.
Context {host : Host}.

Import DashboardRender.

Lemma substring_length (n : nat) (s : string) :
  (String.length (String.substring 0 n s) <= n)%nat.
Proof.
  revert s. induction n as [|n IH]; intros s; destruct s as [|c r]; simpl; try lia.
  specialize (IH r). lia.
Qed.

Lemma substring_short (n : nat) (s : string) :
  (String.length s <= n)%nat -> String.substring 0 n s = s.
Proof.
  revert s. induction n as [|n IH]; intros s L; destruct s as [|c r]; simpl in *;
    try reflexivity; try lia.
  rewrite IH; [reflexivity | lia].
Qed.

Lemma append_length (a b : string) :
  String.length (a ++ b) = (String.length a + String.length b)%nat.
Proof. induction a as [|c r IH]; simpl; [reflexivity | now rewrite IH]. Qed.

(** X16. The description of a card of the Dashboard is the optimized
    description when there is one; otherwise it is the first 150 characters
    of the content followed by three dots: at most 153 characters, and the
    dots are added even when the content is shorter than 150 characters and
    nothing was cut. *)
Theorem card_description_rule (content : value) :
  (truthy (optget content "optimized_description") = true ->
   description_of content = Ok (optget content "optimized_description"))
  /\ (forall text,
         truthy (optget content "optimized_description") = false ->
         optget content "content" = VStr text ->
         description_of content = Ok (VStr (String.substring 0 150 text ++ "..."))
         /\ (String.length (String.substring 0 150 text ++ "...") <= 153)%nat
         /\ ((String.length text <= 150)%nat ->
             description_of content = Ok (VStr (text ++ "..."))))
  /\ (truthy (optget content "optimized_description") = false ->
      (forall text, optget content "content" <> VStr text) ->
      description_of content = Throw TypeError).
Proof.
  unfold description_of. split; [|split].
  - intros T. now rewrite T.
  - intros text T C. rewrite T, C; simpl. split; [reflexivity|]. split.
    + rewrite append_length. pose proof (substring_length 150 text). simpl. lia.
    + intros L. now rewrite substring_short.
  - intros T N. rewrite T.
    destruct (optget content "content"); try reflexivity. now elim (N s).
Qed.

Lemma count_of_sequence (xs : value) :
  sequence_or_absent xs = true -> exists c, count_of xs = Ok c.
Proof.
  unfold count_of, guarded_block.
  destruct xs; simpl; intros E; try discriminate; try (eexists; reflexivity).
  destruct (gt _ 0); eexists; reflexivity.
Qed.

Lemma render_card_record (content : value) :
  record_ok content = true ->
  exists c,
    render_card content = Ok c
    /\ card_key c = optget content "id"
    /\ card_delete c = optget content "id"
    /\ card_link c = "/content/" ++ ToString (optget content "id")
    /\ card_title c = or_else (optget content "optimized_title") (optget content "title").
Proof.
  unfold record_ok. rewrite !andb_true_iff.
  intros [[[[N D] K] S] F]. unfold render_card, get.
  apply negb_true_iff in N. rewrite N. cbn [bind].
  assert (exists d, description_of content = Ok d) as [d ->].
  { unfold description_of.
    destruct (truthy (optget content "optimized_description")) eqn:T;
      [eexists; reflexivity|].
    simpl in D. destruct (optget content "content"); try discriminate.
    simpl. eexists; reflexivity. }
  assert (exists k, keywords_of content = Ok k) as [k ->].
  { unfold keywords_of.
    destruct (optget content "keywords"); simpl in *; try discriminate;
      try (eexists; reflexivity).
    rewrite mapM_Ok; simpl. eexists; reflexivity. }
  cbn [bind].
  destruct (count_of_sequence _ S) as [sc ->]; cbn [bind].
  destruct (count_of_sequence _ F) as [fc ->]; cbn [bind].
  eexists; repeat split.
Qed.

Lemma render_cards_records (records : list value) :
  forallb record_ok records = true ->
  exists cards,
    mapM render_card records = Ok cards
    /\ map card_delete cards = map (fun content => optget content "id") records
    /\ map card_link cards
       = map (fun content => "/content/" ++ ToString (optget content "id")) records
    /\ map card_title cards
       = map (fun content => or_else (optget content "optimized_title")
                                     (optget content "title")) records.
Proof.
  induction records as [|r rest IH]; simpl; intros F.
  - exists []. repeat split.
  - apply andb_true_iff in F. destruct F as [R F].
    destruct (render_card_record r R) as [c [E [_ [D [L T]]]]].
    destruct (IH F) as [cards [M [Ds [Ls Ts]]]].
    exists (c :: cards). rewrite E; simpl. rewrite M; simpl.
    rewrite D, L, T, Ds, Ls, Ts. repeat split.
Qed.

(** X17. The content list of the Dashboard shows the empty state for an
    empty list and otherwise one card per record, in the order of the list;
    the card of a record opens /content/{id} and its trash button selects
    that same id, and its title is the optimized title when there is one and
    the original title otherwise. *)
Theorem one_card_per_record (records : list value) :
  forallb record_ok records = true ->
  (records = [] -> render_library (VArr records) = Ok EmptyState)
  /\ (records <> [] ->
      exists cards,
        render_library (VArr records) = Ok (Cards cards)
        /\ map card_delete cards = map (fun content => optget content "id") records
        /\ map card_link cards
           = map (fun content => "/content/" ++ ToString (optget content "id")) records
        /\ map card_title cards
           = map (fun content => or_else (optget content "optimized_title")
                                         (optget content "title")) records).
Proof.
  intros F. split.
  - intros ->. reflexivity.
  - intros N. destruct (render_cards_records records F) as [cards [M P]].
    exists cards. split; [|exact P].
    unfold render_library; simpl.
    destruct records as [|r rest]; [contradiction|].
    change (strict_eq_num (VNum (Z.of_nat (List.length (r :: rest)))) 0) with false.
    cbn [bind array_map] in *. rewrite M. reflexivity.
Qed.

(** X18. One record that has neither an optimized description nor a text
    content is enough to make the whole content list raise a TypeError: the
    card reads content.content.substring without a guard. *)
Theorem one_bad_record_breaks_list (records : list value) (bad : value) :
  In bad records ->
  truthy (optget bad "optimized_description") = false ->
  is_string (optget bad "content") = false ->
  render_library (VArr records) = Throw TypeError.
Proof.
  intros I T S. unfold render_library; simpl.
  destruct records as [|r rest]; [contradiction|].
  change (strict_eq_num (VNum (Z.of_nat (List.length (r :: rest)))) 0) with false.
  cbn [bind array_map].
  rewrite (mapM_throws render_card (r :: rest) bad I); [reflexivity|].
  unfold render_card, get. destruct (nullish bad); [reflexivity|]. cbn [bind].
  unfold description_of. rewrite T.
  destruct (optget bad "content"); try discriminate; reflexivity.
Qed.

End DashboardCards.

(** X16 on a record with a short text and no description. *)
Lemma card_description_rule_witness :
  @DashboardRender.description_of
    (VObj [("title", VStr "Hello"); ("content", VStr "Short text")])
  = Ok (VStr "Short text...").
Proof.
  refine (proj2 (proj2 (proj1 (proj2
            (card_description_rule
               (VObj [("title", VStr "Hello"); ("content", VStr "Short text")])))
            "Short text" eq_refl eq_refl)) _).
  simpl. lia.
Defined.

(** X17 on a list of two records. *)
Lemma one_card_per_record_witness :
  exists cards,
    @DashboardRender.render_library example_host
      (VArr [VObj [("id", VStr "a1"); ("title", VStr "First"); ("content", VStr "x")];
             VObj [("id", VStr "b2"); ("title", VStr "Second");
                   ("optimized_title", VStr "Second, optimized");
                   ("optimized_description", VStr "d")]])
    = Ok (DashboardRender.Cards cards)
    /\ map DashboardRender.card_delete cards = [VStr "a1"; VStr "b2"]
    /\ map DashboardRender.card_title cards = [VStr "First"; VStr "Second, optimized"].
Proof.
  destruct (proj2 (@one_card_per_record example_host
              [VObj [("id", VStr "a1"); ("title", VStr "First"); ("content", VStr "x")];
               VObj [("id", VStr "b2"); ("title", VStr "Second");
                     ("optimized_title", VStr "Second, optimized");
                     ("optimized_description", VStr "d")]] eq_refl)
             ltac:(discriminate)) as [cards [R [D [_ T]]]].
  exists cards. split; [exact R|]. split; [exact D | exact T].
Defined.

(** X18 on a list whose second record has a title only. *)
Lemma one_bad_record_breaks_list_witness :
  @DashboardRender.render_library example_host
    (VArr [VObj [("id", VStr "a1"); ("content", VStr "x")];
           VObj [("id", VStr "b2"); ("title", VStr "Second")]])
  = Throw TypeError.
Proof.
  exact (@one_bad_record_breaks_list example_host
           [VObj [("id", VStr "a1"); ("content", VStr "x")];
            VObj [("id", VStr "b2"); ("title", VStr "Second")]]
           (VObj [("id", VStr "b2"); ("title", VStr "Second")])
           (or_intror (or_introl eq_refl)) eq_refl eq_refl).
Defined.

Section AddContentRuns.
Variable API : string.

Import AddContent.

(** X19. However a submission ends, it never leaves the page busy: when a
    POST was sent, the last setLoading of the handler is setLoading(false),
    even when the error it caught cannot be read; when the guards stopped the
    submission, the handler never touched the loading flag.  This holds for
    every state of the form and every outcome of the request. *)
Theorem submit_never_stays_busy (s : state) (outcome : settled) :
  let effects := handleSubmit API s outcome in
  (posts effects <> [] ->
   loading (after effects s) = false /\ submit_disabled (after effects s) = false)
  /\ (posts effects = [] ->
      loading (after effects s) = loading s
      /\ forall b, ~ In (SetLoading b) effects).
Proof.
  intros effects. unfold effects, handleSubmit.
  destruct ((inputType s =? "url")%string && negb (truthy (VStr (url s)))).
  - split; [intros N; now elim N|]. intros _. split; [reflexivity|].
    intros b I; simpl in I; intuition discriminate.
  - destruct ((inputType s =? "manual")%string
              && (negb (truthy (VStr (title s))) || negb (truthy (VStr (content s))))).
    + split; [intros N; now elim N|]. intros _. split; [reflexivity|].
      intros b I; simpl in I; intuition discriminate.
    + split; [|intros P; discriminate]. intros _.
      destruct outcome as [response | error]; [split; reflexivity|].
      unfold on_failure. destruct (get error "response"); split; reflexivity.
Qed.

(** X20. For a valid submission the success path does not look at what
    the backend answered: every resolved response gets the success
    notification and the 1500 ms timer.  The timer then navigates to
    /content/{id} with whatever data.id is: to /content/undefined when the
    answer carries no id, and it raises instead of navigating when the
    answer carries no data. *)
Theorem success_path_trusts_response (s : state) (response : value) :
  validation_passes s = true ->
  inputType s = "url" \/ inputType s = "manual" ->
  In (ToastSuccess "Content added successfully! Generating traffic strategies...")
     (handleSubmit API s (Resolved response))
  /\ In (SetTimeout (navigate_target response) 1500) (handleSubmit API s (Resolved response))
  /\ (forall fields,
         optget response "data" = VObj fields -> nullish response = false ->
         navigate_target response = Ok ("/content/" ++ ToString (lookup "id" fields)))
  /\ (forall fields,
         optget response "data" = VObj fields -> nullish response = false ->
         lookup "id" fields = VUndefined ->
         navigate_target response = Ok "/content/undefined")
  /\ (nullish (optget response "data") = true ->
      navigate_target response = Throw TypeError).
Proof.
  intros V M.
  destruct (proj2 (handleSubmit_guards API s (Resolved response) M) V)
    as [rest [E [_ R]]].
  rewrite E, R.
  split; [simpl; tauto|]. split; [simpl; tauto|].
  assert (G : forall fields,
             optget response "data" = VObj fields -> nullish response = false ->
             navigate_target response = Ok ("/content/" ++ ToString (lookup "id" fields))).
  { intros fields D N. unfold navigate_target, get. rewrite N; simpl.
    rewrite D; simpl. reflexivity. }
  split; [exact G|]. split.
  - intros fields D N U. rewrite (G fields D N), U. reflexivity.
  - intros N. unfold navigate_target, get.
    destruct (nullish response); [reflexivity|]. simpl. now rewrite N.
Qed.

End AddContentRuns.

(** X19 on a rejection whose reason is null. *)
Lemma submit_never_stays_busy_witness :
  AddContent.loading
    (AddContent.after
       (AddContent.handleSubmit "http://backend/api"
          {| AddContent.inputType := "url"; AddContent.url := "https://blog.example/a";
             AddContent.title := ""; AddContent.content := "";
             AddContent.loading := false |} (Rejected VNull))
       {| AddContent.inputType := "url"; AddContent.url := "https://blog.example/a";
          AddContent.title := ""; AddContent.content := "";
          AddContent.loading := false |})
  = false.
Proof.
  refine (proj1 (proj1 (submit_never_stays_busy "http://backend/api"
                   {| AddContent.inputType := "url";
                      AddContent.url := "https://blog.example/a";
                      AddContent.title := ""; AddContent.content := "";
                      AddContent.loading := false |} (Rejected VNull)) _)).
  discriminate.
Defined.

(** X20 on an answer without an id. *)
Lemma success_path_trusts_response_witness :
  In (AddContent.SetTimeout (Ok "/content/undefined") 1500)
     (AddContent.handleSubmit "http://backend/api"
        {| AddContent.inputType := "manual"; AddContent.url := "";
           AddContent.title := "T"; AddContent.content := "C";
           AddContent.loading := false |}
        (Resolved (VObj [("data", VObj [("status", VStr "queued")])]))).
Proof.
  exact (proj1 (proj2 (success_path_trusts_response "http://backend/api"
           {| AddContent.inputType := "manual"; AddContent.url := "";
              AddContent.title := "T"; AddContent.content := "C";
              AddContent.loading := false |}
           (VObj [("data", VObj [("status", VStr "queued")])])
           eq_refl (or_intror eq_refl)))).
Defined.

Section DetailsPageActions.
Variable API : string.
Variable id : value.
Variable origin : string.

Import EnhancedContentDetails DetailsActions.





(** X22. When the POST and both requests of the reload succeed, the page
    shows the new record: the content and the queries are the data of the
    two answers, in whichever order they arrive.  Until the second answer is
    in, the page is the spinner and the Refresh button stays disabled. *)
Theorem reload_shows_new_record (p : page) (contentId response : value)
        (contentRes queriesRes c q : value) :
  get contentRes "data" = Ok c ->
  get queriesRes "data" = Ok q ->
  (forall events,
      events = [Settle ContentReq (Resolved contentRes); Settle QueriesReq (Resolved queriesRes)]
      \/ events = [Settle QueriesReq (Resolved queriesRes);
                   Settle ContentReq (Resolved contentRes)] ->
      let outcome := handleRefreshContent API id p contentId (Resolved response) events in
      content (fst outcome) = c
      /\ queries (fst outcome) = q
      /\ loading (fst outcome) = false
      /\ refreshing_after (snd outcome) false = false
      /\ toasts (snd outcome) = [ToastSuccess "Content refreshed successfully!"])
  /\ (forall events,
         events = [] \/ events = [Settle ContentReq (Resolved contentRes)]
         \/ events = [Settle QueriesReq (Resolved queriesRes)] ->
         let outcome := handleRefreshContent API id p contentId (Resolved response) events in
         render (fst outcome) = Spinner
         /\ refreshing_after (snd outcome) false = true).
Proof.
  intros C Q. split.
  - intros events [-> | ->]; unfold handleRefreshContent; simpl;
      unfold on_both; rewrite C, Q; simpl; repeat split.
  - intros events [-> | [-> | ->]]; unfold handleRefreshContent; simpl;
      repeat split.
Qed.

End DetailsPageActions.


(** X22 on a reload whose queries answer first. *)
Lemma reload_shows_new_record_witness :
  EnhancedContentDetails.content
    (fst (DetailsActions.handleRefreshContent "http://backend/api" (VStr "abc123")
            {| EnhancedContentDetails.content := VObj [("title", VStr "Old")];
               EnhancedContentDetails.queries := VArr [];
               EnhancedContentDetails.loading := false;
               EnhancedContentDetails.contentReq := None;
               EnhancedContentDetails.queriesReq := None;
               EnhancedContentDetails.awaiting := false |}
            (VStr "abc123") (Resolved VNull)
            [EnhancedContentDetails.Settle EnhancedContentDetails.QueriesReq
               (Resolved (VObj [("data", VArr [])]));
             EnhancedContentDetails.Settle EnhancedContentDetails.ContentReq
               (Resolved (VObj [("data", VObj [("title", VStr "New")])]))]))
  = VObj [("title", VStr "New")].
Proof.
  exact (proj1 (proj1 (reload_shows_new_record "http://backend/api" (VStr "abc123")
           {| EnhancedContentDetails.content := VObj [("title", VStr "Old")];
              EnhancedContentDetails.queries := VArr [];
              EnhancedContentDetails.loading := false;
              EnhancedContentDetails.contentReq := None;
              EnhancedContentDetails.queriesReq := None;
              EnhancedContentDetails.awaiting := false |}
           (VStr "abc123") VNull
           (VObj [("data", VObj [("title", VStr "New")])]) (VObj [("data", VArr [])])
           (VObj [("title", VStr "New")]) (VArr []) eq_refl eq_refl)
         _ (or_intror eq_refl))).
Defined.

Section ShareLinks.
Variable API : string.
Variable origin : string.

Lemma append_cancel (a b c : string) : a ++ b = a ++ c -> b = c.
Proof.
  induction a as [|x r IH]; simpl; intros E; [exact E|].
  injection E as E. now apply IH.
Qed.

(** X23. The two share links of the detail page are not built from the
    same identifier.  The Share button of the page copies
    {origin}/share/{share_id}, and does nothing at all, without any
    notification, when the record has no share_id; the modal, which the page
    opens with content.id, copies {origin}/share/{id}.  The two links are the
    same exactly when share_id and id print the same. *)
Theorem two_share_links (content : value) (now : Z) (s : ExportModal.state) :
  nullish content = false ->
  (truthy (optget content "share_id") = false ->
   DetailsActions.copyShareLink origin content = Ok [])
  /\ (truthy (optget content "share_id") = true ->
      DetailsActions.copyShareLink origin content
      = Ok [DetailsActions.ClipboardWrite
              (VStr (origin ++ "/share/" ++ ToString (optget content "share_id")));
            DetailsActions.ToastSuccess "Share link copied to clipboard!"])
  /\ hd_error (snd (ExportModal.copyShareLink origin (optget content "id") now s))
     = Some (ExportModal.ClipboardWrite
               (origin ++ "/share/" ++ ToString (optget content "id")))
  /\ (origin ++ "/share/" ++ ToString (optget content "share_id")
      = origin ++ "/share/" ++ ToString (optget content "id")
      <-> ToString (optget content "share_id") = ToString (optget content "id")).
Proof.
  intros N. unfold DetailsActions.copyShareLink, get. rewrite N; simpl.
  split; [intros T; now rewrite T|]. split; [intros T; now rewrite T|].
  split; [reflexivity|]. split.
  - intros E. apply append_cancel in E. now apply (append_cancel "/share/") in E.
  - intros E. now rewrite E.
Qed.

(** X24. The route /share/:shareId renders EnhancedContentDetails, which
    reads the parameter id: on that route id is undefined, so that for every
    share link the page asks the backend for /content/undefined and
    /queries/undefined, and the identifier of the link is sent nowhere.  On
    /content/:id the two requests carry the segment of the URL. *)
Theorem share_route_has_no_id (segment : string) :
  App.route (App.Share segment) = App.EnhancedContentDetailsPage
  /\ App.id_of (App.Share segment) = VUndefined
  /\ snd (EnhancedContentDetails.mount API (App.id_of (App.Share segment)))
     = [EnhancedContentDetails.Get (API ++ "/content/undefined");
        EnhancedContentDetails.Get (API ++ "/queries/undefined")]
  /\ snd (EnhancedContentDetails.mount API (App.id_of (App.Content segment)))
     = [EnhancedContentDetails.Get (API ++ "/content/" ++ segment);
        EnhancedContentDetails.Get (API ++ "/queries/" ++ segment)].
Proof.
  repeat split.
Qed.

End ShareLinks.

(** X23 on a record whose share_id differs from its id. *)
Lemma two_share_links_witness :
  DetailsActions.copyShareLink "https://app.example"
    (VObj [("id", VStr "abc123"); ("share_id", VStr "s-77")])
  = Ok [DetailsActions.ClipboardWrite (VStr "https://app.example/share/s-77");
        DetailsActions.ToastSuccess "Share link copied to clipboard!"].
Proof.
  exact (proj1 (proj2 (two_share_links "https://app.example"
                         (VObj [("id", VStr "abc123"); ("share_id", VStr "s-77")])
                         0 ExportModal.initial eq_refl)) eq_refl).
Defined.

Section DetailsTabs.
Context {host : Host}.

Import DetailsView.

(** X25. The Overview tab guards SEOScoreCard by the presence of
    seo_score only: a record whose seo_score is there without a string grade
    makes the whole tab raise a TypeError, whereas a record without seo_score
    gets no card and no call of the renderer. *)
Theorem overview_needs_grade (content : value) :
  (truthy (optget content "seo_score") = true ->
   (forall s, optget (optget content "seo_score") "grade" <> VStr s) ->
   render_overview content = Throw TypeError)
  /\ (truthy (optget content "seo_score") = false ->
      forall o, render_overview content = Ok o ->
                seo_card o = Hidden (optget content "seo_score")).
Proof.
  unfold render_overview, when_present. split.
  - intros T N. rewrite T.
    unfold SEOScoreCard.SEOScoreCard. rewrite T; simpl.
    now rewrite (getGradeColor_other _ N).
  - intros T o. rewrite T; simpl.
    destruct (truthy (optget content "freshness")); simpl;
      destruct (truthy (optget content "meta_preview")); simpl;
      destruct (badges (optget content "keywords")); simpl; try discriminate;
      destruct (badges (optget content "lsi_keywords")); simpl; try discriminate;
      intros [= <-]; reflexivity.
Qed.

Lemma when_present_shown {B} (slice : value) (renderer : value -> result (option B))
      (s : slot (option B)) :
  (forall v, truthy v = true -> renderer v <> Ok None) ->
  when_present slice renderer = Ok s -> s <> Shown None.
Proof.
  intros R. unfold when_present. destruct (truthy slice) eqn:T.
  - destruct (renderer slice) as [[b|]|] eqn:E; simpl; try discriminate.
    + intros [= <-]. discriminate.
    + now elim (R slice T).
  - intros [= <-]. discriminate.
Qed.

(** X26. Behind the guards of the page the `return null' of
    SEOScoreCard, ContentFreshness and MetaPreview is never taken: when the
    Overview tab renders, none of the three cards is an empty one.
    TopicClusters is different: behind the same kind of guard it still
    returns null for a record whose topic_clusters has an empty pillar
    topic. *)
Theorem page_guards_and_renderer_guards (content : value) :
  (forall o, render_overview content = Ok o ->
             seo_card o <> Shown None
             /\ freshness_card o <> Shown None
             /\ meta_preview o <> Shown None)
  /\ (truthy (optget content "topic_clusters") = true ->
      truthy (optget (optget content "topic_clusters") "pillar_topic") = false ->
      forall t, render_traffic content = Ok t -> topic_clusters t = Shown None).
Proof.
  split.
  - intros o. unfold render_overview.
    destruct (when_present (optget content "seo_score") _) as [seo|] eqn:S;
      simpl; [|discriminate].
    destruct (when_present (optget content "freshness") _) as [fresh|] eqn:F;
      simpl; [|discriminate].
    destruct (when_present (optget content "meta_preview") _) as [meta|] eqn:M;
      simpl; [|discriminate].
    destruct (badges (optget content "keywords")); simpl; [|discriminate].
    destruct (badges (optget content "lsi_keywords")); simpl; [|discriminate].
    intros [= <-]; simpl. split; [|split].
    + eapply when_present_shown; [|exact S]. intros v T.
      unfold SEOScoreCard.SEOScoreCard. rewrite T; simpl.
      destruct (SEOScoreCard.getGradeColor _); simpl; [|discriminate].
      destruct (guarded_map _ _); simpl; discriminate.
    + eapply when_present_shown; [|exact F]. intros v T.
      unfold ContentFreshness.ContentFreshness. rewrite T; simpl. discriminate.
    + eapply when_present_shown; [|exact M]. intros v T.
      unfold MetaPreview.MetaPreview. rewrite T; simpl. discriminate.
  - intros T P t. unfold render_traffic.
    destruct (TrafficInsights.TrafficInsights _ _ _ _); simpl; [|discriminate].
    unfold when_present. rewrite T.
    unfold TopicClusters.TopicClusters. rewrite T, P; simpl.
    intros [= <-]. reflexivity.
Qed.

(** X27. The quick stats count what is there: the Keywords figure is the
    number of keywords of the record, 0 for an empty or absent list, and the
    Queries figure is the number of queries.  The Queries figure has no
    fallback: when the queries are null, the stats raise a TypeError. *)
Theorem quick_stats_count (content queries : value) :
  number_or_absent (optget (optget content "quality_score") "overall_quality") = true ->
  number_or_absent
    (optget (optget content "content_optimization") "readability_score") = true ->
  (forall qs, queries = VArr qs ->
     exists stats,
       render_quick_stats content queries = Ok stats
       /\ queries_stat stats = VNum (Z.of_nat (List.length qs))
       /\ (forall kws, optget content "keywords" = VArr kws ->
             keywords_stat stats = VNum (Z.of_nat (List.length kws)))
       /\ (nullish (optget content "keywords") = true -> keywords_stat stats = VNum 0))
  /\ (nullish queries = true -> render_quick_stats content queries = Throw TypeError).
Proof.
  intros Q R. unfold render_quick_stats.
  destruct (number_toFixed _ 0%nat Q) as [q ->]; simpl.
  destruct (number_toFixed _ 0%nat R) as [r ->]; simpl.
  split.
  - intros qs ->. simpl. eexists; split; [reflexivity|]. simpl.
    split; [reflexivity|]. split.
    + intros kws ->. simpl. unfold or_else; simpl.
      destruct kws; reflexivity.
    + intros N. rewrite (optget_absent _ _ N). reflexivity.
  - intros N. unfold get. now rewrite N.
Qed.

(** X28. The content preview of the detail page shows the first 1000
    characters of the text and adds the three dots only when something was
    cut: a text of at most 1000 characters is shown whole and without dots.
    A record without a text makes the preview raise a TypeError. *)
Theorem preview_cuts_at_1000 (content : value) :
  nullish content = false ->
  (forall text, optget content "content" = VStr text ->
     exists p,
       render_preview content = Ok p
       /\ excerpt p = String.substring 0 1000 text
       /\ (String.length (excerpt p) <= 1000)%nat
       /\ ((String.length text <= 1000)%nat ->
           excerpt p = text /\ reactText (ellipsis p) = Some "")
       /\ ((1000 < String.length text)%nat -> ellipsis p = VStr "..."))
  /\ (is_string (optget content "content") = false ->
      render_preview content = Throw TypeError).
Proof.
  intros N. unfold render_preview, get. rewrite N. cbn [bind]. split.
  - intros text ->. simpl. rewrite gt_number.
    eexists; split; [reflexivity|]. simpl. split; [reflexivity|].
    split; [apply substring_length|]. split.
    + intros L. rewrite (substring_short _ _ L).
      destruct (Z.ltb_spec 1000 (Z.of_nat (String.length text))); [lia|].
      split; reflexivity.
    + intros L.
      destruct (Z.ltb_spec 1000 (Z.of_nat (String.length text))); [reflexivity | lia].
  - intros S. destruct (optget content "content"); try discriminate; reflexivity.
Qed.

End DetailsTabs.

Section QueryLists.

Import ContentDetails.

Lemma filterM_objects (type : string) (items : list (list (string * value))) :
  filterM (has_type type) (map VObj items)
  = Ok (filter (fun q => strict_eq (optget q "query_type") type) (map VObj items)).
Proof.
  induction items as [|fields rest IH]; [reflexivity|].
  simpl. rewrite IH; simpl. reflexivity.
Qed.

Lemma strict_eq_exclusive (v : value) (a b : string) :
  a <> b -> strict_eq v a = true -> strict_eq v b = false.
Proof.
  intros N A. apply strict_eq_true in A. subst v. simpl.
  apply String.eqb_neq. exact N.
Qed.

(** X29. The detail page splits the queries by query_type into the
    standard ones and the voice ones.  For a list of query records the two
    lists keep the order of the list, no query is in both, and a query is in
    neither exactly when its type is neither `standard' nor `voice': such a
    query is shown nowhere, so that the two lists together hold as many
    queries as the list minus those. *)
Theorem queries_split_by_type (items : list (list (string * value))) :
  exists standard voice,
    standardQueries (VArr (map VObj items)) = Ok standard
    /\ voiceQueries (VArr (map VObj items)) = Ok voice
    /\ standard = filter (fun q => strict_eq (optget q "query_type") "standard")
                         (map VObj items)
    /\ voice = filter (fun q => strict_eq (optget q "query_type") "voice")
                      (map VObj items)
    /\ (forall q, In q standard -> ~ In q voice)
    /\ (forall q, In q (map VObj items) ->
          (~ In q standard /\ ~ In q voice) <-> In q (untyped (map VObj items)))
    /\ (List.length standard + List.length voice
        + List.length (untyped (map VObj items))
        = List.length items)%nat.
Proof.
  exists (filter (fun q => strict_eq (optget q "query_type") "standard") (map VObj items)),
         (filter (fun q => strict_eq (optget q "query_type") "voice") (map VObj items)).
  unfold standardQueries, voiceQueries, queries_of_type.
  rewrite !filterM_objects.
  split; [reflexivity|]. split; [reflexivity|]. split; [reflexivity|].
  split; [reflexivity|]. split; [|split].
  - intros q S V. apply filter_In in S. apply filter_In in V.
    destruct S as [_ S], V as [_ V].
    rewrite (strict_eq_exclusive _ "standard" "voice") in V; [discriminate | discriminate | exact S].
  - intros q I. unfold untyped. rewrite !filter_In. split.
    + intros [S V]. split; [exact I|].
      destruct (strict_eq (optget q "query_type") "standard") eqn:ES; [now elim S|].
      destruct (strict_eq (optget q "query_type") "voice") eqn:EV; [now elim V|].
      reflexivity.
    + intros [_ U]. apply andb_true_iff in U. destruct U as [S V].
      apply negb_true_iff in S. apply negb_true_iff in V.
      split; intros [_ E]; congruence.
  - unfold untyped. rewrite <- (length_map VObj items).
    induction (map VObj items) as [|q rest IH]; [reflexivity|].
    simpl.
    destruct (strict_eq (optget q "query_type") "standard") eqn:S.
    + rewrite (strict_eq_exclusive _ "standard" "voice"); [|discriminate | exact S].
      simpl. lia.
    + destruct (strict_eq (optget q "query_type") "voice"); simpl; lia.
Qed.

End QueryLists.

(** X25 on a record whose seo_score has a score and no grade. *)
Lemma overview_needs_grade_witness :
  @DetailsView.render_overview example_host
    (VObj [("id", VStr "abc123"); ("seo_score", VObj [("overall_score", VNum 72)])])
  = Throw TypeError.
Proof.
  refine (proj1 (@overview_needs_grade example_host
            (VObj [("id", VStr "abc123"); ("seo_score", VObj [("overall_score", VNum 72)])]))
            eq_refl _).
  intros s. discriminate.
Defined.

(** X26 on a record whose topic clusters have an empty pillar topic. *)
Lemma page_guards_and_renderer_guards_witness :
  exists t,
    @DetailsView.render_traffic example_host
      (VObj [("topic_clusters", VObj [("pillar_topic", VStr "")])]) = Ok t
    /\ DetailsView.topic_clusters t = Shown None.
Proof.
  eexists. split; [reflexivity|].
  exact (proj2 (@page_guards_and_renderer_guards example_host
                  (VObj [("topic_clusters", VObj [("pillar_topic", VStr "")])]))
               eq_refl eq_refl _ eq_refl).
Defined.

(** X27 on a record with two keywords and three queries. *)
Lemma quick_stats_count_witness :
  exists stats,
    DetailsView.render_quick_stats
      (VObj [("keywords", VArr [VStr "seo"; VStr "llm"])])
      (VArr [VObj []; VObj []; VObj []]) = Ok stats
    /\ DetailsView.queries_stat stats = VNum 3
    /\ DetailsView.keywords_stat stats = VNum 2.
Proof.
  destruct (proj1 (quick_stats_count
                     (VObj [("keywords", VArr [VStr "seo"; VStr "llm"])])
                     (VArr [VObj []; VObj []; VObj []]) eq_refl eq_refl)
                  [VObj []; VObj []; VObj []] eq_refl) as [stats [R [Q [K _]]]].
  exists stats. split; [exact R|]. split; [exact Q|].
  exact (K [VStr "seo"; VStr "llm"] eq_refl).
Defined.

(** X28 on a short text. *)
Lemma preview_cuts_at_1000_witness :
  exists p,
    @DetailsView.render_preview example_host (VObj [("content", VStr "Short text")]) = Ok p
    /\ DetailsView.excerpt p = "Short text"
    /\ reactText (DetailsView.ellipsis p) = Some "".
Proof.
  destruct (proj1 (@preview_cuts_at_1000 example_host
                     (VObj [("content", VStr "Short text")]) eq_refl)
                  "Short text" eq_refl) as [p [R [_ [_ [S _]]]]].
  exists p. split; [exact R|]. apply S. simpl. lia.
Defined.
